(** * PocketPal: inference-configuration compatibility and migration

    A shallow embedding of the compatibility rule engine, the backend
    resolver and the schema migrator ([src/utils/flashAttnCompatibility.ts]
    and the versioned configuration that follows it in the same file), of the
    device catalog ([src/utils/deviceSelection.ts]) and of the device handler
    of the model settings screen, with the properties the specification
    states about them.

    Conventions of the embedding:
    - a JavaScript string is a [string] (a sequence of 8-bit characters);
      [toLowerCase] acts on the ASCII letters, which is all the comparisons of
      the source ("metal", "cpu") can observe;
    - a JavaScript number is an IEEE-754 binary64 [float];
    - a plain object is a finite map from property names to values;
    - [Platform.OS] is an explicit argument of every function that reads it;
    - an awaited call to the native probe is an argument holding its outcome. *)

From Stdlib Require Import Ascii String PrimFloat.
From stdpp Require Import gmap strings list fin_maps pretty.

Local Open Scope string_scope.

(** ** Strings *)

Module Js.

(** The double-quote character, for literals that contain one. *)
Definition dquote : string := String (Ascii.ascii_of_nat 34) EmptyString.

(** [String.prototype.toLowerCase], on the ASCII range. *)
Definition lower_ascii (c : ascii) : ascii :=
  let n := Ascii.nat_of_ascii c in
  if (65 <=? n)%nat && (n <=? 90)%nat then Ascii.ascii_of_nat (n + 32) else c.

Fixpoint toLowerCase (s : string) : string :=
  match s with
  | EmptyString => EmptyString
  | String c s' => String (lower_ascii c) (toLowerCase s')
  end.

(** [String.prototype.startsWith]. *)
Definition startsWith (s p : string) : bool := String.prefix p s.

(** [String.prototype.includes]. *)
Fixpoint includes (s p : string) : bool :=
  String.prefix p s ||
  match s with
  | EmptyString => false
  | String _ s' => includes s' p
  end.

(** Strict equality of two strings. *)
Definition str_eq (a b : string) : bool := String.eqb a b.

End Js.

(** ** Platform *)

(** [Platform.OS] of react-native; the source only ever compares it with
    ['ios'] and ['android']. *)
Inductive PlatformOS := ios | android | other_os.

Definition is_ios (os : PlatformOS) : bool :=
  match os with ios => true | _ => false end.

Definition is_android (os : PlatformOS) : bool :=
  match os with android => true | _ => false end.

(** ** Compatibility rule engine (flashAttnCompatibility.ts) *)

Inductive FlashAttnType := fa_auto | fa_on | fa_off.

Inductive BackendType := metal | opencl | hexagon | cpu | blas.

#[global] Instance FlashAttnType_eq_dec : EqDecision FlashAttnType.
Proof. solve_decision. Defined.

#[global] Instance BackendType_eq_dec : EqDecision BackendType.
Proof. solve_decision. Defined.

(** Modelled from the spec: the enum [CacheType] is declared in
    [./types], which is not among the sources. Section 3 gives its
    members; each member's run-time value is the lower-case string of its
    name, as the literals ['f16'] and ['f32'] of [isQuantizedCacheType] and the
    tests show. *)
Inductive CacheType := F16 | F32 | Q8_0 | Q5_1 | Q5_0 | Q4_1 | Q4_0 | IQ4_NL.

Definition CacheType_value (c : CacheType) : string :=
  match c with
  | F16 => "f16" | F32 => "f32" | Q8_0 => "q8_0" | Q5_1 => "q5_1"
  | Q5_0 => "q5_0" | Q4_1 => "q4_1" | Q4_0 => "q4_0" | IQ4_NL => "iq4_nl"
  end.

(** The result object [{safe; reason?}]. *)
Record Verdict := mkVerdict { safe : bool; reason : option string }.

Definition isQuantizedCacheType (cacheType : string) : bool :=
  negb (Js.str_eq cacheType (CacheType_value F16)) &&
  negb (Js.str_eq cacheType (CacheType_value F32)) &&
  negb (Js.str_eq cacheType "f16") &&
  negb (Js.str_eq cacheType "f32").

Definition isCacheTypeVSafe
    (cacheTypeV : string) (flashAttnType : FlashAttnType) (backend : BackendType)
    : Verdict :=
  let isQuantizedV := isQuantizedCacheType cacheTypeV in
  if negb isQuantizedV then mkVerdict true None
  else if decide (flashAttnType = fa_off) then
    mkVerdict false
      (Some "Quantized V cache requires flash attention to be enabled")
  else if decide (flashAttnType = fa_on) then
    if decide (backend = opencl) then
      mkVerdict false
        (Some "OpenCL does not support flash attention (required for quantized V cache)")
    else if decide (backend = hexagon) then
      mkVerdict false
        (Some ("Hexagon flash attention support varies by device (use "
               +:+ Js.dquote +:+ "off" +:+ Js.dquote
               +:+ " with F16/F32 for safety)"))
    else mkVerdict true None
  else if decide (backend = opencl) then
    mkVerdict false
      (Some "OpenCL auto-disables flash attention, quantized V cache will fail at runtime")
  else if decide (backend = hexagon) then
    mkVerdict false
      (Some "Hexagon flash attention support varies by device; quantized V cache may fail at runtime")
  else mkVerdict true None.

Definition isCacheTypeKSafe
    (_cacheTypeK : string) (_flashAttnType : FlashAttnType) (_backend : BackendType)
    : Verdict :=
  mkVerdict true None.

(** *** The matrix of section 4.4, written from the specification *)

Module SpecTable.

Definition quantized (c : CacheType) : bool :=
  match c with F16 | F32 => false | _ => true end.

(** One row of the table: the verdict and, when unsafe, the phrase of the
    table's last column. *)
Definition row (c : CacheType) (f : FlashAttnType) (b : BackendType)
    : bool * option string :=
  if negb (quantized c) then (true, None)
  else
    match f, b with
    | fa_off, _ => (false, Some "quantized V cache requires flash attention")
    | fa_on, opencl => (false, Some "OpenCL does not support flash attention")
    | fa_on, hexagon =>
        (false, Some "Hexagon flash attention support varies by device")
    | fa_on, (metal | cpu | blas) => (true, None)
    | fa_auto, opencl => (false, Some "OpenCL auto-disables flash attention")
    | fa_auto, hexagon =>
        (false, Some "Hexagon flash attention support varies by device")
    | fa_auto, (metal | cpu | blas) => (true, None)
    end.

(** A reason string carries a phrase of the table when it contains it, letter
    case apart. *)
Definition carries (r phrase : string) : bool :=
  Js.includes (Js.toLowerCase r) (Js.toLowerCase phrase).

Definition agrees (v : Verdict) (t : bool * option string) : Prop :=
  safe v = fst t /\
  match snd t with
  | None => reason v = None
  | Some phrase => exists r, reason v = Some r /\ carries r phrase = true
  end.

(** The same comparison as a boolean, to decide it by evaluation. *)
Definition agreesb (v : Verdict) (t : bool * option string) : bool :=
  Bool.eqb (safe v) (fst t) &&
  match snd t, reason v with
  | None, None => true
  | Some phrase, Some r => carries r phrase
  | _, _ => false
  end.

End SpecTable.

(** ** JavaScript values and failure *)

(** A value of the untyped configuration blob, as [JSON.parse] or a caller can
    hand it over. *)
#[warnings="-register-all"]
Inductive JsVal :=
| JUndefined
| JNull
| JBool (b : bool)
| JNum (x : float)
| JStr (s : string)
| JArr (l : list JsVal)
| JObj (m : gmap string JsVal).

(** An exception that reaches the caller. *)
Inductive JsError :=
| TypeError (msg : string)
| NativeError (msg : string).

(** The outcome of a call: a value, or an exception thrown to the caller. *)
Inductive Res (A : Type) :=
| Ok (a : A)
| Throw (e : JsError).

Arguments Ok {A} a.
Arguments Throw {A} e.

(** [Res] is a monad; [x ← r; k] runs [k] on the value of [r] and passes a
    thrown exception on. *)
#[global] Instance Res_ret : MRet Res := fun A a => Ok a.

#[global] Instance Res_bind : MBind Res := fun A B k r =>
  match r with
  | Ok a => k a
  | Throw e => Throw e
  end.

Module Obj.

(** [o.k]: reading a property that the object does not have gives
    [undefined]. *)
Definition get (o : gmap string JsVal) (k : string) : JsVal :=
  default JUndefined (o !! k).

(** ['k' in o] for a plain object and a name that [Object.prototype] does not
    define, which holds of every name the source tests. *)
Definition has (k : string) (o : gmap string JsVal) : bool :=
  match o !! k with Some _ => true | None => false end.

(** The name of the [i]-th index property. *)
Definition index_key (i : nat) : string := pretty i.

(** The own enumerable properties of a value, which is what the object
    spread [{...v}] copies: those of an object, the indices of an array or of
    a string, none of any other value ([null] and [undefined] included). *)
Definition own_enumerable (v : JsVal) : gmap string JsVal :=
  match v with
  | JObj m => m
  | JArr l => list_to_map (imap (fun i x => (index_key i, x)) l)
  | JStr s =>
      list_to_map
        (imap (fun i c => (index_key i, JStr (String c EmptyString)))
              (list_ascii_of_string s))
  | _ => ∅
  end.

End Obj.

(** [v === undefined]. *)
Definition is_undefined (v : JsVal) : bool :=
  match v with JUndefined => true | _ => false end.

(** [v === true]. *)
Definition is_true (v : JsVal) : bool :=
  match v with JBool true => true | _ => false end.

(** [v === s] for a string literal [s]. *)
Definition is_str (v : JsVal) (s : string) : bool :=
  match v with JStr t => Js.str_eq t s | _ => false end.

(** [v === x] for a number literal [x]. *)
Definition is_num (v : JsVal) (x : float) : bool :=
  match v with JNum y => PrimFloat.eqb y x | _ => false end.

(** [typeof v === 'boolean']. *)
Definition typeof_boolean (v : JsVal) : bool :=
  match v with JBool _ => true | _ => false end.

(** [ToBoolean]: the falsy values are [undefined], [null], [false], [0],
    [-0], [NaN] and the empty string. *)
Definition truthy (v : JsVal) : bool :=
  match v with
  | JUndefined | JNull => false
  | JBool b => b
  | JNum x => negb (PrimFloat.eqb x 0%float) && PrimFloat.eqb x x
  | JStr s => negb (Js.str_eq s "")
  | JArr _ | JObj _ => true
  end.

(** ['k' in v]: a [TypeError] unless [v] is an object; an array has its
    indices and [length]. *)
Definition js_in (k : string) (v : JsVal) : Res bool :=
  match v with
  | JObj m => Ok (Obj.has k m)
  | JArr _ => Ok (Obj.has k (Obj.own_enumerable v) || Js.str_eq k "length")
  | _ => Throw (TypeError "Cannot use 'in' operator to search for a key in a non-object")
  end.

(** [Array.prototype.every] with a callback that may throw. *)
Fixpoint every {A : Type} (f : A -> Res bool) (l : list A) : Res bool :=
  match l with
  | [] => Ok true
  | x :: l' => f x ≫= λ b : bool, if b then every f l' else Ok false
  end.

(** ** Schema migrator *)

(** The versioned configuration: [CURRENT_CONTEXT_INIT_PARAMS_VERSION],
    [migrateContextInitParams], [validateContextInitParams] and
    [createDefaultContextInitParams]. *)

Definition CURRENT_CONTEXT_INIT_PARAMS_VERSION : string := "2.0".

(** The platform default of [use_mmap]. *)
Definition default_use_mmap (os : PlatformOS) : string :=
  if is_android os then "smart" else "true".

(** The platform default of [flash_attn_type]. *)
Definition default_flash_attn (os : PlatformOS) : string :=
  if is_ios os then "auto" else "off".

(** The step from a legacy blob to version 1.0. *)
Definition migrate_legacy_to_1_0 (os : PlatformOS) (p : gmap string JsVal)
    : gmap string JsVal :=
  let p :=
    if Obj.has "n_context" p && negb (Obj.has "n_ctx" p)
    then delete "n_context" (<["n_ctx" := Obj.get p "n_context"]> p)
    else p in
  let p :=
    if is_undefined (Obj.get p "use_mlock")
    then <["use_mlock" := JBool false]> p
    else p in
  let p :=
    if is_undefined (Obj.get p "use_mmap")
    then <["use_mmap" := JStr (default_use_mmap os)]> p
    else if typeof_boolean (Obj.get p "use_mmap")
    then <["use_mmap" :=
             JStr (if truthy (Obj.get p "use_mmap") then "true" else "false")]> p
    else p in
  let p :=
    if is_undefined (Obj.get p "no_gpu_devices")
    then <["no_gpu_devices" := JBool false]> p
    else p in
  <["version" := JStr "1.0"]> p.

(** The step from version 1.0 to version 2.0. *)
Definition migrate_1_0_to_2_0 (os : PlatformOS) (p : gmap string JsVal)
    : gmap string JsVal :=
  let p :=
    if Obj.has "no_gpu_devices" p then
      if is_true (Obj.get p "no_gpu_devices") then
        <["devices" := JUndefined]> (<["n_gpu_layers" := JNum 0%float]> p)
      else
        let p := <["devices" := JUndefined]> p in
        if is_undefined (Obj.get p "n_gpu_layers")
           || is_num (Obj.get p "n_gpu_layers") 0%float
        then <["n_gpu_layers" := JNum 99%float]> p
        else p
    else p in
  let p :=
    if Obj.has "flash_attn" p && typeof_boolean (Obj.get p "flash_attn") then
      if truthy (Obj.get p "flash_attn")
      then <["flash_attn_type" := JStr (default_flash_attn os)]> p
      else <["flash_attn_type" := JStr "off"]> p
    else if negb (truthy (Obj.get p "flash_attn_type"))
    then <["flash_attn_type" := JStr (default_flash_attn os)]> p
    else p in
  let p :=
    if is_undefined (Obj.get p "kv_unified")
    then <["kv_unified" := JBool true]> p
    else p in
  let p :=
    if is_undefined (Obj.get p "n_parallel")
    then <["n_parallel" := JNum 1%float]> p
    else p in
  let p :=
    if is_num (Obj.get p "n_ctx") 1024%float
    then <["n_ctx" := JNum 2048%float]> p
    else p in
  <["version" := JStr "2.0"]> p.

(** [migrateContextInitParams]. The clone is a plain object whatever [params]
    is, so no later step can throw. *)
Definition migrateContextInitParams (os : PlatformOS) (params : JsVal)
    : Res (gmap string JsVal) :=
  let migratedParams := Obj.own_enumerable params in
  let migratedParams :=
    if is_undefined (Obj.get migratedParams "version")
    then <["version" := JStr "0.0"]> migratedParams
    else migratedParams in
  let migratedParams :=
    if is_str (Obj.get migratedParams "version") "0.0"
       || negb (truthy (Obj.get migratedParams "version"))
    then migrate_legacy_to_1_0 os migratedParams
    else migratedParams in
  let migratedParams :=
    if is_str (Obj.get migratedParams "version") "1.0"
    then migrate_1_0_to_2_0 os migratedParams
    else migratedParams in
  Ok (<["version" := JStr CURRENT_CONTEXT_INIT_PARAMS_VERSION]> migratedParams).

Definition requiredFields : list string :=
  [ "version"; "n_ctx"; "n_batch"; "n_ubatch"; "n_threads"; "cache_type_k";
    "cache_type_v"; "n_gpu_layers"; "use_mlock"; "use_mmap" ].

Definition validateContextInitParams (params : JsVal) : Res bool :=
  every (fun field => js_in field params) requiredFields.

Definition createDefaultContextInitParams (os : PlatformOS)
    : gmap string JsVal :=
  list_to_map
    [ ("version", JStr CURRENT_CONTEXT_INIT_PARAMS_VERSION);
      ("n_ctx", JNum 2048%float);
      ("n_batch", JNum 512%float);
      ("n_ubatch", JNum 512%float);
      ("n_threads", JNum 4%float);
      ("cache_type_k", JStr "f16");
      ("cache_type_v", JStr "f16");
      ("n_gpu_layers", JNum 99%float);
      ("use_mlock", JBool false);
      ("use_mmap", JStr (default_use_mmap os));
      ("devices", JUndefined);
      ("flash_attn_type", JStr (default_flash_attn os));
      ("kv_unified", JBool true);
      ("n_parallel", JNum 1%float) ].

(** ** Capability probe and backend resolver *)

(** The device record of the native library [llama.rn], of which the source
    reads the two fields that section 6 of the specification lists. *)
Record NativeBackendDeviceInfo := mkDeviceInfo {
  deviceName : string;
  type : string;
}.

(** The outcome of the native call [getBackendDevicesInfo()]: a list, a
    nullish value, or a failure. *)
Definition ProbeOutcome : Type := Res (option (list NativeBackendDeviceInfo)).

(** [getAvailableDevices]: [devices || []], and [[]] when the call fails. *)
Definition getAvailableDevices (probe : ProbeOutcome)
    : list NativeBackendDeviceInfo :=
  match probe with
  | Ok (Some devices) => devices
  | Ok None => []
  | Throw _ => []
  end.

Definition inferBackendType
    (os : PlatformOS) (devices : option (list string)) (probe : ProbeOutcome)
    : BackendType :=
  match devices with
  | Some (primaryDevice :: _) =>
      let deviceLower := Js.toLowerCase primaryDevice in
      if Js.str_eq deviceLower "metal" then metal
      else if Js.str_eq deviceLower "cpu" then cpu
      else if Js.startsWith primaryDevice "HTP" then hexagon
      else if is_android os then opencl
      else cpu
  | _ =>
      if is_ios os then metal
      else
        let availableDevices := getAvailableDevices probe in
        let hasGpu :=
          existsb (fun d => Js.str_eq (type d) "gpu") availableDevices in
        if hasGpu then opencl else cpu
  end.

(** Equality of two strings, letter case apart: the specification's
    "case-insensitive". *)
Fixpoint equal_ignoring_case (a b : string) : bool :=
  match a, b with
  | EmptyString, EmptyString => true
  | String x a', String y b' =>
      Ascii.eqb (Js.lower_ascii x) (Js.lower_ascii y)
      && equal_ignoring_case a' b'
  | _, _ => false
  end.

(** ** Device catalog builder (deviceSelection.ts) *)

Inductive DeviceId := id_auto | id_gpu | id_hexagon | id_cpu.

Inductive DeviceTag := Recommended | Fastest | Stable | Compatible | Experimental.

Inductive PlatformTag := platform_ios | platform_android | platform_both.

Module DeviceOption.

Record t := mk {
  id : DeviceId;
  label : string;
  description : string;
  devices : option (list string);
  n_gpu_layers : float;
  default_flash_attn_type : FlashAttnType;
  valid_flash_attn_types : list FlashAttnType;
  tag : option DeviceTag;
  experimental : option bool;
  platform : PlatformTag;
  deviceInfo : option NativeBackendDeviceInfo;
}.

End DeviceOption.

Definition getDeviceOptions (os : PlatformOS) (probe : ProbeOutcome)
    : list DeviceOption.t :=
  if is_ios os then
    [ DeviceOption.mk id_auto "Auto"
        "Automatically selects Metal GPU (Recommended)"
        None 99%float fa_auto [fa_auto; fa_on; fa_off]
        (Some Recommended) None platform_ios None;
      DeviceOption.mk id_gpu "Metal"
        "Explicitly use Metal GPU acceleration"
        (Some ["Metal"]) 99%float fa_auto [fa_auto; fa_on; fa_off]
        None None platform_ios None;
      DeviceOption.mk id_cpu "CPU"
        "CPU only (slower, for testing or compatibility)"
        (Some ["CPU"]) 0%float fa_auto [fa_auto; fa_on; fa_off]
        None None platform_ios None ]
  else
    let devices := getAvailableDevices probe in
    let hexagonDevs :=
      List.filter (fun d => Js.startsWith (deviceName d) "HTP") devices in
    let hasHexagon := (0 <? length hexagonDevs)%nat in
    let gpuDev := List.find (fun d => Js.str_eq (type d) "gpu") devices in
    [ DeviceOption.mk id_cpu "CPU"
        "CPU only (Slowest, but works with all models)"
        (Some ["CPU"]) 0%float fa_off [fa_auto; fa_on; fa_off]
        (Some Recommended) None platform_android None ]
    ++ match gpuDev with
       | Some gpuDev =>
           [ DeviceOption.mk id_gpu "GPU (OpenCL)"
               "OpenCL GPU acceleration (Only for Q4_0/Q6_K models)"
               (Some [deviceName gpuDev]) 99%float fa_off [fa_off]
               (Some Fastest) None platform_android (Some gpuDev) ]
       | None => []
       end
    ++ (if hasHexagon then
          [ DeviceOption.mk id_hexagon "Hexagon"
              "Qualcomm NPU (Experimental, fastest but may be unstable)"
              (Some ["HTP*"]) 99%float fa_off [fa_off]
              (Some Experimental) (Some true) platform_android
              (head hexagonDevs) ]
        else []).

(** ** Device selection in the settings screen *)

(** Modelled from the spec: the type [ContextInitParams] is declared in
    [./types], which is not among the sources; its fields are those
    of section 3. The handler reads [flash_attn_type] through [??], so the
    field may be unset. *)
Module ContextInitParams.

Record t := mk {
  version : string;
  n_ctx : float;
  n_batch : float;
  n_ubatch : float;
  n_threads : float;
  cache_type_k : string;
  cache_type_v : string;
  n_gpu_layers : float;
  use_mlock : bool;
  use_mmap : string;
  devices : option (list string);
  flash_attn_type : option FlashAttnType;
  kv_unified : bool;
  n_parallel : float;
}.

Definition with_devices (d : option (list string)) (c : t) : t :=
  mk (version c) (n_ctx c) (n_batch c) (n_ubatch c) (n_threads c)
     (cache_type_k c) (cache_type_v c) (n_gpu_layers c) (use_mlock c)
     (use_mmap c) d (flash_attn_type c) (kv_unified c) (n_parallel c).

Definition with_flash_attn_type (f : option FlashAttnType) (c : t) : t :=
  mk (version c) (n_ctx c) (n_batch c) (n_ubatch c) (n_threads c)
     (cache_type_k c) (cache_type_v c) (n_gpu_layers c) (use_mlock c)
     (use_mmap c) (devices c) f (kv_unified c) (n_parallel c).

End ContextInitParams.

(** A computation on a store [S]: it returns a value and the store it
    leaves. *)
Definition StoreM (S A : Type) : Type := S -> A * S.

#[global] Instance StoreM_ret {S : Type} : MRet (StoreM S) :=
  fun A a st => (a, st).

#[global] Instance StoreM_bind {S : Type} : MBind (StoreM S) :=
  fun A B k c st => let '(a, st') := c st in k a st'.

Definition readStore {S A : Type} (f : S -> A) : StoreM S A :=
  fun st => (f st, st).

(** [Array.prototype.includes] on the flash-attention modes. *)
Definition includes_fa (l : list FlashAttnType) (f : FlashAttnType) : bool :=
  bool_decide (f ∈ l).

(** The handler of the settings screen. The source of the model store
    [modelStore] is not among the files: the handler is written over any
    store that offers the observable [contextInitParams] and the two setters
    it calls. *)
Section DeviceSelection.

Context {ModelStore : Type}.
Variable contextInitParams : ModelStore -> ContextInitParams.t.
Variable setDevices : option (list string) -> StoreM ModelStore unit.
Variable setFlashAttnType : FlashAttnType -> StoreM ModelStore unit.

Definition handleDeviceSelect (os : PlatformOS) (option : DeviceOption.t)
    : StoreM ModelStore unit :=
  _ ← setDevices (DeviceOption.devices option);
  currentFlashAttn ← readStore (fun st =>
    default (if is_ios os then fa_auto else fa_off)
      (ContextInitParams.flash_attn_type (contextInitParams st)));
  if negb (includes_fa (DeviceOption.valid_flash_attn_types option)
             currentFlashAttn)
  then setFlashAttnType (DeviceOption.default_flash_attn_type option)
  else mret tt.

End DeviceSelection.

(** Modelled from the spec: a store that holds the configuration and
    nothing else, with the two setters of [modelStore]. By section 3 a change
    of a setting replaces the configuration by a new value, here the old one
    with the one field changed. *)
Module SimpleStore.

Record t := mk { contextInitParams : ContextInitParams.t }.

Definition setDevices (d : option (list string)) : StoreM t unit :=
  fun st =>
    (tt, mk (ContextInitParams.with_devices d (contextInitParams st))).

Definition setFlashAttnType (f : FlashAttnType) : StoreM t unit :=
  fun st =>
    (tt, mk (ContextInitParams.with_flash_attn_type (Some f)
               (contextInitParams st))).

Definition handleDeviceSelect := Eval cbv delta [handleDeviceSelect] in
  handleDeviceSelect contextInitParams setDevices setFlashAttnType.

End SimpleStore.

(** *** The order of schema versions, written from the specification *)

Module Version.

Definition digit (c : ascii) : option N :=
  let n := N_of_ascii c in
  if (48 <=? n)%N && (n <=? 57)%N then Some (n - 48)%N else None.

Fixpoint parse_digits (acc : N) (s : string) : option N :=
  match s with
  | EmptyString => Some acc
  | String c s' =>
      match digit c with
      | Some d => parse_digits (10 * acc + d)%N s'
      | None => None
      end
  end.

Definition parse_number (s : string) : option N :=
  match s with
  | EmptyString => None
  | _ => parse_digits 0%N s
  end.

(** The text before and after the first dot. *)
Fixpoint split_dot (s : string) : option (string * string) :=
  match s with
  | EmptyString => None
  | String c s' =>
      if Ascii.eqb c "."%char then Some (EmptyString, s')
      else
        match split_dot s' with
        | Some (a, b) => Some (String c a, b)
        | None => None
        end
  end.

(** A version tag ["major.minor"]. *)
Definition parse (v : string) : option (N * N) :=
  match split_dot v with
  | Some (a, b) =>
      match parse_number a, parse_number b with
      | Some x, Some y => Some (x, y)
      | _, _ => None
      end
  | None => None
  end.

(** [earlier a b]: [a] is an earlier schema version than [b]. *)
Definition earlier (a b : string) : bool :=
  match parse a, parse b with
  | Some (a1, a2), Some (b1, b2) =>
      (a1 <? b1)%N || ((a1 =? b1)%N && (a2 <? b2)%N)
  | _, _ => false
  end.

End Version.

(** ** Observations used in the statements *)

(** The field [k] of a returned object. *)
Definition field_of (k : string) (r : Res (gmap string JsVal))
    : option JsVal :=
  match r with
  | Ok p => p !! k
  | Throw _ => None
  end.

(** The fields that a migration step may write or delete. *)
Definition written_fields : list string :=
  [ "version"; "n_ctx"; "n_context"; "use_mlock"; "use_mmap";
    "no_gpu_devices"; "n_gpu_layers"; "devices"; "flash_attn_type";
    "kv_unified"; "n_parallel" ].

(** Two objects that agree on every field outside [K]. *)
Definition same_off (K : list string) (p q : gmap string JsVal) : Prop :=
  forall k, k ∉ K -> p !! k = q !! k.

(** The default of an option is one of its valid modes. *)
Definition default_is_valid (o : DeviceOption.t) : Prop :=
  DeviceOption.default_flash_attn_type o
    ∈ DeviceOption.valid_flash_attn_types o.

(** The name of an index property starts with a digit. *)
Definition starts_with_digit (s : string) : Prop :=
  match s with
  | EmptyString => True
  | String c _ => Version.digit c <> None
  end.

(** ** Option lists of the rule engine *)

(** An entry of the list a cache-type menu shows. *)
Module CacheOption.

Record t := mk {
  value : CacheType;
  label : string;
  disabled : bool;
  reason : option string;
}.

End CacheOption.

(** The literal [allOptions] of both list builders. *)
Definition allOptions : list (CacheType * string) :=
  [ (F16, "F16 (Default)"); (F32, "F32"); (Q8_0, "Q8_0"); (Q5_1, "Q5_1");
    (Q5_0, "Q5_0"); (Q4_1, "Q4_1"); (Q4_0, "Q4_0"); (IQ4_NL, "IQ4_NL") ].

Definition getAllowedCacheTypeVOptions
    (flashAttnType : FlashAttnType) (backend : BackendType)
    : list CacheOption.t :=
  map (fun option : CacheType * string =>
         let validation :=
           isCacheTypeVSafe (CacheType_value (fst option)) flashAttnType
             backend in
         CacheOption.mk (fst option) (snd option)
           (negb (safe validation)) (reason validation))
      allOptions.

Definition getAllowedCacheTypeKOptions
    (flashAttnType : FlashAttnType) (backend : BackendType)
    : list CacheOption.t :=
  map (fun option : CacheType * string =>
         let validation :=
           isCacheTypeKSafe (CacheType_value (fst option)) flashAttnType
             backend in
         CacheOption.mk (fst option) (snd option)
           (negb (safe validation)) (reason validation))
      allOptions.

(** ** Factory of the versioned configuration *)

(** [v === false]. *)
Definition is_false (v : JsVal) : bool :=
  match v with JBool false => true | _ => false end.

(** [v ?? d]: [d] stands in for [undefined] and [null] only. *)
Definition coalesce (v d : JsVal) : JsVal :=
  match v with
  | JUndefined | JNull => d
  | _ => v
  end.

(** The properties of an object literal after a spread, in the order they
    are written: a later one replaces an earlier one of the same name. *)
Definition with_properties (o : gmap string JsVal)
    (properties : list (string * JsVal)) : gmap string JsVal :=
  foldl (fun m kv => <[fst kv := snd kv]> m) o properties.

(** [createContextInitParams]. Its parameter has the object type
    [Omit<ContextParams, 'model'>]. *)
Definition createContextInitParams
    (os : PlatformOS) (params : gmap string JsVal) : gmap string JsVal :=
  let use_mmap :=
    if is_true (Obj.get params "use_mmap") then JStr "true"
    else if is_false (Obj.get params "use_mmap") then JStr "false"
    else coalesce (Obj.get params "use_mmap")
           (JStr (if is_android os then "smart" else "true")) in
  let flash_attn_type :=
    coalesce (Obj.get params "flash_attn_type")
      (JStr (if is_ios os then "auto" else "off")) in
  with_properties params
    [ ("use_mmap", use_mmap);
      ("version", JStr CURRENT_CONTEXT_INIT_PARAMS_VERSION);
      ("n_ctx", coalesce (Obj.get params "n_ctx") (JNum 2048%float));
      ("n_batch", coalesce (Obj.get params "n_batch") (JNum 512%float));
      ("n_ubatch", coalesce (Obj.get params "n_ubatch") (JNum 512%float));
      ("n_threads", coalesce (Obj.get params "n_threads") (JNum 4%float));
      ("cache_type_k", coalesce (Obj.get params "cache_type_k") (JStr "f16"));
      ("cache_type_v", coalesce (Obj.get params "cache_type_v") (JStr "f16"));
      ("n_gpu_layers",
       coalesce (Obj.get params "n_gpu_layers") (JNum 99%float));
      ("use_mlock", coalesce (Obj.get params "use_mlock") (JBool false));
      ("flash_attn_type", flash_attn_type);
      ("devices", Obj.get params "devices");
      ("kv_unified", coalesce (Obj.get params "kv_unified") (JBool true));
      ("n_parallel", coalesce (Obj.get params "n_parallel") (JNum 1%float)) ].

Definition nullish (v : JsVal) : bool :=
  match v with JUndefined | JNull => true | _ => false end.

(** The value that a list of properties gives to the name [k]: the last one
    written under that name. *)
Fixpoint last_written (k : string) (properties : list (string * JsVal))
    : option JsVal :=
  match properties with
  | [] => None
  | kv :: rest =>
      match last_written k rest with
      | Some v => Some v
      | None => if String.eqb (fst kv) k then Some (snd kv) else None
      end
  end.

(** The names the factory writes. *)
Definition factory_fields : list string :=
  [ "use_mmap"; "version"; "n_ctx"; "n_batch"; "n_ubatch"; "n_threads";
    "cache_type_k"; "cache_type_v"; "n_gpu_layers"; "use_mlock";
    "flash_attn_type"; "devices"; "kv_unified"; "n_parallel" ].

(** [p] has every field of [q], those named in [K] apart. *)
Definition keeps_off (K : list string) (p q : gmap string JsVal) : Prop :=
  forall k, k ∉ K -> is_Some (q !! k) -> is_Some (p !! k).

(** A blob the migrator takes for a legacy one: its version is missing,
    falsy or ['0.0']. *)
Definition is_legacy (m : gmap string JsVal) : bool :=
  is_str (Obj.get m "version") "0.0" || negb (truthy (Obj.get m "version")).

(** The one-time raise of the old default context size. *)
Definition bump_n_ctx (v : JsVal) : JsVal :=
  if is_num v 1024%float then JNum 2048%float else v.

(** ** Model quantization and device defaults (deviceSelection.ts) *)

Module JsText.

(** [String.prototype.toUpperCase], on the ASCII range. *)
Definition upper_ascii (c : ascii) : ascii :=
  let n := Ascii.nat_of_ascii c in
  if (97 <=? n)%nat && (n <=? 122)%nat then Ascii.ascii_of_nat (n - 32) else c.

Fixpoint toUpperCase (s : string) : string :=
  match s with
  | EmptyString => EmptyString
  | String c s' => String (upper_ascii c) (toUpperCase s')
  end.

(** The line feed. *)
Definition nl : string := String (Ascii.ascii_of_nat 10) EmptyString.

(** The bullet U+2022, in UTF-8. *)
Definition bullet : string :=
  String (Ascii.ascii_of_nat 226)
    (String (Ascii.ascii_of_nat 128)
       (String (Ascii.ascii_of_nat 162) EmptyString)).

End JsText.

#[global] Instance DeviceId_eq_dec : EqDecision DeviceId.
Proof. solve_decision. Defined.

#[global] Instance PlatformOS_eq_dec : EqDecision PlatformOS.
Proof. solve_decision. Defined.

Definition quantPatterns : list string :=
  [ "f32"; "f16"; "q8_0"; "q6_k"; "q5_k_m"; "q5_k_s"; "q5_1"; "q5_0";
    "q4_k_m"; "q4_k_s"; "q4_1"; "q4_0"; "q3_k_l"; "q3_k_m"; "q3_k_s";
    "q2_k"; "iq4_nl" ].

(** [detectQuantizationType]: the first pattern, in the order of the list,
    that the lower-cased file name contains. *)
Definition detectQuantizationType (filename : string) : option string :=
  let normalized := Js.toLowerCase filename in
  List.find (fun pattern => Js.includes normalized pattern) quantPatterns.

(** The result object [{valid; warning?; recommendation?}]. *)
Record QuantValidation := mkQuantValidation {
  valid : bool;
  warning : option string;
  recommendation : option string;
}.

Definition validateModelQuantizationForDevice
    (os : PlatformOS) (modelFilename : string) (deviceOption : DeviceOption.t)
    : QuantValidation :=
  match detectQuantizationType modelFilename with
  | None => mkQuantValidation true None None
  | Some quant =>
      if is_ios os && negb (bool_decide (DeviceOption.id deviceOption = id_cpu))
      then mkQuantValidation true None None
      else if is_android os then
        let mayUseOpenCL :=
          bool_decide (DeviceOption.id deviceOption = id_gpu)
          || (bool_decide (DeviceOption.id deviceOption = id_auto)
              && PrimFloat.ltb 0%float (DeviceOption.n_gpu_layers deviceOption))
        in
        if mayUseOpenCL then
          let openclSupported := ["q4_0"; "q6_k"] in
          if negb (existsb (fun x => Js.str_eq x quant) openclSupported) then
            mkQuantValidation false
              (Some ("OpenCL only supports Q4_0 and Q6_K quantization."
                     +:+ JsText.nl +:+ JsText.nl
                     +:+ "This model (" +:+ JsText.toUpperCase quant
                     +:+ ") will fall back to CPU, "
                     +:+ "resulting in very slow inference (~5-10 tokens/sec)."))
              (Some ("Recommendations:" +:+ JsText.nl
                     +:+ JsText.bullet
                     +:+ " Use a Q4_0 or Q6_K version of this model"
                     +:+ JsText.nl
                     +:+ JsText.bullet
                     +:+ " Switch to Hexagon NPU (if available)"
                     +:+ JsText.nl
                     +:+ JsText.bullet
                     +:+ " Use CPU only (slower but works)"))
          else mkQuantValidation true None None
        else mkQuantValidation true None None
      else mkQuantValidation true None None
  end.

(** The result object of [getDefaultDeviceConfig]. *)
Record DeviceConfig := mkDeviceConfig {
  config_devices : option (list string);
  config_n_gpu_layers : float;
  config_default_flash_attn_type : FlashAttnType;
}.

Definition getDefaultDeviceConfig (os : PlatformOS) : DeviceConfig :=
  if is_ios os then mkDeviceConfig None 99%float fa_auto
  else mkDeviceConfig (Some ["CPU"]) 0%float fa_off.

Definition isHexagonAvailable (probe : ProbeOutcome) : bool :=
  let devices := getAvailableDevices probe in
  existsb (fun d => Js.startsWith (deviceName d) "HTP") devices.

Definition isGpuAvailable (probe : ProbeOutcome) : bool :=
  let devices := getAvailableDevices probe in
  existsb (fun d => Js.str_eq (type d) "gpu") devices.

Definition getRecommendedDeviceId (os : PlatformOS) : DeviceId :=
  if is_ios os then id_auto else id_cpu.

(** ** Settings screen: the current device and the mode buttons *)

(** [getCurrentDeviceId], on the configuration it reads from the store. The
    configuration type holds [n_gpu_layers] as a number, for which [?? 0]
    changes nothing. *)
Definition getCurrentDeviceId
    (os : PlatformOS) (contextInitParams : ContextInitParams.t) : DeviceId :=
  let devices := ContextInitParams.devices contextInitParams in
  let nGpuLayers := ContextInitParams.n_gpu_layers contextInitParams in
  if is_ios os then
    match devices with
    | None | Some [] =>
        if PrimFloat.eqb nGpuLayers 0%float then id_cpu else id_auto
    | Some (d :: _) =>
        if Js.str_eq d "Metal" then id_gpu
        else if Js.str_eq d "CPU" then id_cpu
        else id_auto
    end
  else
    match devices with
    | None | Some [] => id_cpu
    | Some (d :: _) =>
        if Js.str_eq d "CPU" then id_cpu
        else if Js.startsWith d "HTP" then id_hexagon
        else id_gpu
    end.

(** A segmented button of the flash-attention control; the label, a
    localised text, is left out. *)
Record ModeButton := mkModeButton {
  button_value : FlashAttnType;
  button_disabled : bool;
}.

(** The [buttons] of the flash-attention control: the valid modes are those
    of the catalog option that has the current identifier, and all three
    when the loaded catalog has no such option. *)
Definition flashAttentionButtons
    (os : PlatformOS) (contextInitParams : ContextInitParams.t)
    (deviceOptions : list DeviceOption.t) : list ModeButton :=
  let currentDeviceId := getCurrentDeviceId os contextInitParams in
  let currentDevice :=
    List.find (fun opt => bool_decide (DeviceOption.id opt = currentDeviceId))
      deviceOptions in
  let validTypes :=
    match currentDevice with
    | Some d => DeviceOption.valid_flash_attn_types d
    | None => [fa_auto; fa_on; fa_off]
    end in
  [ mkModeButton fa_auto (negb (includes_fa validTypes fa_auto));
    mkModeButton fa_on (negb (includes_fa validTypes fa_on));
    mkModeButton fa_off (negb (includes_fa validTypes fa_off)) ].

(** ** Hexagon detection (the utilities that import [getAvailableDevices]) *)

Inductive HexagonVersion := v690 | v730 | v750 | v790 | v810.

#[global] Instance HexagonVersion_eq_dec : EqDecision HexagonVersion.
Proof. solve_decision. Defined.

(** The keys of [HEXAGON_VERSION_MAP], in the order [Object.entries] lists
    them (integer-like keys ascending, which is also the written order). *)
Definition hexagonVersions : list HexagonVersion :=
  [v690; v730; v750; v790; v810].

(** [HEXAGON_VERSION_MAP[version].socs]. *)
Definition hexagon_socs (version : HexagonVersion) : list string :=
  match version with
  | v690 => ["Snapdragon 855"; "Snapdragon 865"; "SM8150"; "SM8250"]
  | v730 => ["Snapdragon 888"; "Snapdragon 8 Gen 1"; "SM8350"; "SM8450"]
  | v750 => ["Snapdragon 8 Gen 2"; "SM8550"]
  | v790 => ["Snapdragon 8 Gen 3"; "SM8650"]
  | v810 => ["Snapdragon 8 Elite"; "SM8750"]
  end.

(** [HEXAGON_VERSION_MAP[version].displayName]. *)
Definition hexagon_displayName (version : HexagonVersion) : string :=
  match version with
  | v690 => "Hexagon 690"
  | v730 => "Hexagon 730"
  | v750 => "Hexagon 750"
  | v790 => "Hexagon 790"
  | v810 => "Hexagon 810"
  end.

(** [detectHexagonVersion]; an absent or empty chipset is falsy. *)
Definition detectHexagonVersion (chipset : option string)
    : option HexagonVersion :=
  match chipset with
  | Some chipset =>
      if Js.str_eq chipset "" then None
      else
        let chipsetLower := Js.toLowerCase chipset in
        List.find
          (fun version =>
             existsb (fun soc => Js.includes chipsetLower (Js.toLowerCase soc))
               (hexagon_socs version))
          hexagonVersions
  | None => None
  end.

(** [x || d] on strings: the empty string is falsy. *)
Definition or_else (x : option string) (d : string) : string :=
  match x with
  | Some s => if Js.str_eq s "" then d else s
  | None => d
  end.

Definition getSoCForHexagonVersion (version : HexagonVersion) : string :=
  or_else (head (hexagon_socs version)) "Unknown".

Definition getHexagonDisplayName (version : HexagonVersion) : string :=
  hexagon_displayName version.

(** [version in HEXAGON_VERSION_MAP]. *)
Definition isHexagonVersionSupported (version : HexagonVersion) : bool :=
  bool_decide (version ∈ hexagonVersions).

Module HexagonInfo.

Record t := mk {
  version : HexagonVersion;
  deviceName : string;
  soc : string;
  supported : bool;
}.

End HexagonInfo.

(** [getHexagonInfo]. Nothing in its [try] block can throw, since
    [getAvailableDevices] catches the failure of the probe itself. *)
Definition getHexagonInfo (chipset : option string) (probe : ProbeOutcome)
    : list HexagonInfo.t :=
  let devices := getAvailableDevices probe in
  let hexagonDevices :=
    List.filter (fun d => Js.startsWith (deviceName d) "HTP") devices in
  let version := detectHexagonVersion chipset in
  match version with
  | Some version =>
      if (0 <? length hexagonDevices)%nat then
        [ HexagonInfo.mk version
            (String.concat ", " (map deviceName hexagonDevices))
            (getSoCForHexagonVersion version)
            (isHexagonVersionSupported version) ]
      else []
  | None => []
  end.

(** [hasSupportedHexagon] calls [getHexagonInfo()] with no chipset. *)
Definition hasSupportedHexagon (probe : ProbeOutcome) : bool :=
  let hexagonInfo := getHexagonInfo None probe in
  existsb HexagonInfo.supported hexagonInfo.

(** ** GPU capability check (deviceCapabilities.ts) *)

Inductive GpuReason := ios_version | no_adreno | missing_cpu_features | unknown.

Module GpuCapabilities.

Record Details := mkDetails {
  hasAdreno : option bool;
  hasI8mm : option bool;
  hasDotProd : option bool;
  iosVersion : option float;
}.

Record t := mk {
  isSupported : bool;
  reason : option GpuReason;
  details : option Details;
}.

End GpuCapabilities.

(** What the native calls [getGPUInfo()] and [getCPUInfo()] resolve to, as
    far as [checkGpuSupport] reads it. *)
Record NativeGpuInfo := mkNativeGpuInfo { gpu_hasAdreno : option bool }.

Record NativeCpuInfo := mkNativeCpuInfo {
  cpu_hasI8mm : option bool;
  cpu_hasDotProd : option bool;
}.

(** [b ?? false]. *)
Definition or_false (b : option bool) : bool := default false b.

(** [checkGpuSupport]. [iosVersion] is the number that
    [parseInt(Platform.Version, 10)] returns, [NaN] included. Each native
    function may be missing ([None]); when present, its call resolves to an
    object, resolves to a nullish value (reading a field of which throws
    inside the [try]), or rejects. *)
Definition checkGpuSupport
    (os : PlatformOS) (iosVersion : float)
    (getGPUInfo : option (Res (option NativeGpuInfo)))
    (getCPUInfo : option (Res (option NativeCpuInfo)))
    : GpuCapabilities.t :=
  if is_ios os then
    let isSupported := PrimFloat.leb 18%float iosVersion in
    GpuCapabilities.mk isSupported
      (if isSupported then None else Some ios_version)
      (Some (GpuCapabilities.mkDetails None None None (Some iosVersion)))
  else if is_android os then
    match getGPUInfo, getCPUInfo with
    | Some gpuCall, Some cpuCall =>
        match gpuCall, cpuCall with
        | Ok (Some gpuInfo), Ok (Some cpuInfo) =>
            let hasAdreno := or_false (gpu_hasAdreno gpuInfo) in
            let hasI8mm := or_false (cpu_hasI8mm cpuInfo) in
            let hasDotProd := or_false (cpu_hasDotProd cpuInfo) in
            let isSupported := hasAdreno && hasI8mm && hasDotProd in
            let reason :=
              if negb isSupported then
                if negb hasAdreno then Some no_adreno
                else if negb hasI8mm || negb hasDotProd
                     then Some missing_cpu_features
                     else Some unknown
              else None in
            GpuCapabilities.mk isSupported reason
              (Some (GpuCapabilities.mkDetails (Some hasAdreno) (Some hasI8mm)
                       (Some hasDotProd) None))
        | _, _ => GpuCapabilities.mk false (Some unknown) None
        end
    | _, _ => GpuCapabilities.mk false (Some unknown) None
    end
  else GpuCapabilities.mk false (Some unknown) None.

(** * Properties *)

(** Membership in a list that is written out. *)
Ltac in_list :=
  repeat first [ apply list_elem_of_here | apply list_elem_of_further ].

Lemma agreesb_sound (v : Verdict) (t : bool * option string) :
  SpecTable.agreesb v t = true -> SpecTable.agrees v t.
Proof.
  unfold SpecTable.agreesb, SpecTable.agrees.
  intros [Hs Hr]%andb_true_iff. split.
  - apply Bool.eqb_prop, Hs.
  - destruct (snd t) as [phrase|], (reason v) as [r|]; try discriminate.
    + exists r. split; [reflexivity | exact Hr].
    + reflexivity.
Qed.

Example isCacheTypeVSafe_q8_off_metal :
  safe (isCacheTypeVSafe "q8_0" fa_off metal) = false.
Proof. reflexivity. Qed.

Example isCacheTypeVSafe_q8_on_metal :
  isCacheTypeVSafe "q8_0" fa_on metal = mkVerdict true None.
Proof. reflexivity. Qed.

Example isCacheTypeVSafe_q8_auto_opencl :
  exists r, isCacheTypeVSafe "q8_0" fa_auto opencl = mkVerdict false (Some r)
            /\ Js.includes r "auto-disables" = true.
Proof. eexists. split; reflexivity. Qed.

(** C1. Matrix fidelity: for each of the 8 cache types, 3 flash-attention
    modes and 5 backends, [isCacheTypeVSafe] returns the verdict of the table
    of section 4.4, and an unsafe verdict carries the table's reason. *)
Theorem isCacheTypeVSafe_matrix :
  forall (c : CacheType) (f : FlashAttnType) (b : BackendType),
    SpecTable.agrees (isCacheTypeVSafe (CacheType_value c) f b)
                     (SpecTable.row c f b).
Proof.
  intros c f b. apply agreesb_sound.
  destruct c, f, b; vm_compute; reflexivity.
Qed.

(** A string that is neither ['f16'] nor ['f32'] is quantized. *)
Lemma isQuantizedCacheType_other (s : string) :
  s <> "f16" -> s <> "f32" -> isQuantizedCacheType s = true.
Proof.
  intros H16 H32. unfold isQuantizedCacheType, Js.str_eq. simpl.
  apply String.eqb_neq in H16, H32. rewrite H16, H32. reflexivity.
Qed.

(** C10. [isCacheTypeVSafe] takes any string: one other than ['f16'] and
    ['f32'] is quantized, so with flash attention off it is unsafe on every
    backend, with the reason that a quantized V cache requires flash
    attention. *)
Theorem isCacheTypeVSafe_unknown_string_off (s : string) (b : BackendType) :
  s <> "f16" -> s <> "f32" ->
  isQuantizedCacheType s = true /\
  isCacheTypeVSafe s fa_off b =
    mkVerdict false
      (Some "Quantized V cache requires flash attention to be enabled").
Proof.
  intros H16 H32.
  pose proof (isQuantizedCacheType_other s H16 H32) as Hq.
  split; [exact Hq|].
  unfold isCacheTypeVSafe. rewrite Hq. reflexivity.
Qed.

Lemma isCacheTypeVSafe_unknown_string_off_witness :
  isQuantizedCacheType "q6_k" = true /\
  isCacheTypeVSafe "q6_k" fa_off opencl =
    mkVerdict false
      (Some "Quantized V cache requires flash attention to be enabled").
Proof.
  apply (isCacheTypeVSafe_unknown_string_off "q6_k" opencl); discriminate.
Defined.


(** ** Schema migrator *)

Lemma Ok_inj {A : Type} (a b : A) : Ok a = Ok b -> a = b.
Proof. intros H. congruence. Qed.

Lemma get_insert_eq (p : gmap string JsVal) (k : string) (v : JsVal) :
  Obj.get (<[k := v]> p) k = v.
Proof. unfold Obj.get. rewrite lookup_insert_eq. reflexivity. Qed.

Lemma get_lookup (p : gmap string JsVal) (k : string) (v : JsVal) :
  p !! k = Some v -> Obj.get p k = v.
Proof. unfold Obj.get. intros ->. reflexivity. Qed.

(** The migrator returns an object stamped with the current version. *)
Lemma migrate_stamped (os : PlatformOS) (x : JsVal) :
  exists q : gmap string JsVal,
    migrateContextInitParams os x
    = Ok (<["version" := JStr CURRENT_CONTEXT_INIT_PARAMS_VERSION]> q).
Proof. unfold migrateContextInitParams. eexists. reflexivity. Qed.

(** An object at the current version goes through no step: it comes back as
    it is. *)
Lemma migrate_current (os : PlatformOS) (m : gmap string JsVal) :
  m !! "version" = Some (JStr CURRENT_CONTEXT_INIT_PARAMS_VERSION) ->
  migrateContextInitParams os (JObj m) = Ok m.
Proof.
  intros Hv. unfold migrateContextInitParams.
  cbn [Obj.own_enumerable]. cbv zeta.
  do 3 (rewrite (get_lookup m "version" _ Hv); cbn).
  f_equal. apply insert_id. exact Hv.
Qed.

Example migrate_renames_n_context :
  exists p, migrateContextInitParams ios
              (JObj {[ "n_context" := JNum 4096%float ]}) = Ok p
            /\ p !! "n_ctx" = Some (JNum 4096%float)
            /\ p !! "n_context" = None.
Proof. eexists. split; [reflexivity|]. split; vm_compute; reflexivity. Qed.

Example migrate_no_gpu_devices :
  exists p, migrateContextInitParams android
              (JObj {[ "no_gpu_devices" := JBool true ]}) = Ok p
            /\ p !! "devices" = Some JUndefined
            /\ p !! "n_gpu_layers" = Some (JNum 0%float).
Proof. eexists. split; [reflexivity|]. split; vm_compute; reflexivity. Qed.

(** C2. Migration is idempotent: migrating the result of a migration gives
    that result again; and an object already at the current schema version
    keeps every field, the version being stamped with the same value. *)
Theorem migrateContextInitParams_idempotent (os : PlatformOS) :
  (forall x : JsVal,
     (migrateContextInitParams os x
        ≫= λ p, migrateContextInitParams os (JObj p))
     = migrateContextInitParams os x) /\
  (forall m : gmap string JsVal,
     m !! "version" = Some (JStr CURRENT_CONTEXT_INIT_PARAMS_VERSION) ->
     migrateContextInitParams os (JObj m) = Ok m).
Proof.
  split.
  - intros x. destruct (migrate_stamped os x) as [q ->]. cbn.
    apply migrate_current. apply lookup_insert_eq.
  - apply migrate_current.
Qed.

Lemma migrateContextInitParams_idempotent_witness :
  migrateContextInitParams android
    (JObj (createDefaultContextInitParams android))
  = Ok (createDefaultContextInitParams android).
Proof.
  apply (proj2 (migrateContextInitParams_idempotent android)).
  vm_compute. reflexivity.
Defined.

(** *** Fields the migrator leaves alone *)

Lemma same_off_refl (K : list string) (p : gmap string JsVal) :
  same_off K p p.
Proof. intros k _. reflexivity. Qed.

Lemma same_off_trans (K : list string) (p q r : gmap string JsVal) :
  same_off K p q -> same_off K q r -> same_off K p r.
Proof. intros Hpq Hqr k Hk. rewrite (Hpq k Hk). apply Hqr, Hk. Qed.

Lemma same_off_insert (K : list string) (k : string) (v : JsVal)
    (p q : gmap string JsVal) :
  k ∈ K -> same_off K p q -> same_off K (<[k := v]> p) q.
Proof.
  intros Hk H j Hj. rewrite lookup_insert_ne; [apply H, Hj|].
  intros ->. contradiction.
Qed.

Lemma same_off_delete (K : list string) (k : string)
    (p q : gmap string JsVal) :
  k ∈ K -> same_off K p q -> same_off K (delete k p) q.
Proof.
  intros Hk H j Hj. rewrite lookup_delete_ne; [apply H, Hj|].
  intros ->. contradiction.
Qed.

Lemma same_off_if (K : list string) (c : bool) (p1 p2 q : gmap string JsVal) :
  same_off K p1 q -> same_off K p2 q -> same_off K (if c then p1 else p2) q.
Proof. destruct c; trivial. Qed.

(** Walks down a chain of conditional assignments to written fields. *)
Ltac frame :=
  repeat first
    [ apply same_off_refl
    | apply same_off_if
    | apply same_off_insert; [unfold written_fields; in_list|]
    | apply same_off_delete; [unfold written_fields; in_list|] ].

Lemma migrate_legacy_to_1_0_frame (os : PlatformOS) (p : gmap string JsVal) :
  same_off written_fields (migrate_legacy_to_1_0 os p) p.
Proof. unfold migrate_legacy_to_1_0. cbv zeta. frame. Qed.

Lemma migrate_1_0_to_2_0_frame (os : PlatformOS) (p : gmap string JsVal) :
  same_off written_fields (migrate_1_0_to_2_0 os p) p.
Proof. unfold migrate_1_0_to_2_0. cbv zeta. frame. Qed.

(** Every field that no step names comes out as it went in, an absent one
    staying absent. *)
Lemma migrate_frame (os : PlatformOS) (x : JsVal) :
  exists p, migrateContextInitParams os x = Ok p /\
            same_off written_fields p (Obj.own_enumerable x).
Proof.
  unfold migrateContextInitParams. eexists. split; [reflexivity|].
  cbv zeta. set (q := Obj.own_enumerable x).
  apply same_off_insert; [unfold written_fields; in_list|].
  apply same_off_if.
  - eapply same_off_trans; [apply migrate_1_0_to_2_0_frame|].
    apply same_off_if.
    + eapply same_off_trans; [apply migrate_legacy_to_1_0_frame|]. frame.
    + frame.
  - apply same_off_if.
    + eapply same_off_trans; [apply migrate_legacy_to_1_0_frame|]. frame.
    + frame.
Qed.

Example migrate_keeps_garbage :
  exists p, migrateContextInitParams ios
              (JObj {[ "n_batch" := JStr "garbage" ]}) = Ok p
            /\ p !! "n_batch" = Some (JStr "garbage")
            /\ p !! "n_threads" = None.
Proof. eexists. split; [reflexivity|]. split; vm_compute; reflexivity. Qed.

(** C3, as the code has it. The claim's second half fails: for [null], a
    malformed blob, the migrator returns an object other than the one of
    [createDefaultContextInitParams], and one that the validator rejects. *)
Lemma migrateContextInitParams_null_not_default :
  migrateContextInitParams android JNull
    <> Ok (createDefaultContextInitParams android) /\
  migrateContextInitParams ios JNull
    <> Ok (createDefaultContextInitParams ios) /\
  (migrateContextInitParams android JNull
     ≫= λ p, validateContextInitParams (JObj p)) = Ok false /\
  (migrateContextInitParams ios JNull
     ≫= λ p, validateContextInitParams (JObj p)) = Ok false.
Proof.
  split; [|split; [|split]].
  - intros H. apply (f_equal (field_of "n_ctx")) in H.
    vm_compute in H. discriminate H.
  - intros H. apply (f_equal (field_of "n_ctx")) in H.
    vm_compute in H. discriminate H.
  - vm_compute. reflexivity.
  - vm_compute. reflexivity.
Qed.

(** C3 (amended). [migrateContextInitParams] never raises, whatever the blob.
    It does not fall back to [createDefaultContextInitParams]: a field that
    no migration step names, such as [n_batch], [n_ubatch], [n_threads],
    [cache_type_k] and [cache_type_v], comes out as the blob has it, an absent
    one staying absent. From a blob without any property ([null],
    [undefined], a number, a boolean, an empty string, array or object) it
    returns the object its two steps build, which agrees with the default
    configuration on [version], [use_mlock], [use_mmap], [devices],
    [n_gpu_layers], [flash_attn_type], [kv_unified] and [n_parallel], adds
    [no_gpu_devices = false], and has none of [n_ctx], [n_batch], [n_ubatch],
    [n_threads], [cache_type_k], [cache_type_v]. *)
Theorem migrateContextInitParams_never_raises (os : PlatformOS) (x : JsVal) :
  exists p, migrateContextInitParams os x = Ok p /\
    (forall k : string,
       k ∉ [ "version"; "n_ctx"; "n_context"; "use_mlock"; "use_mmap";
             "no_gpu_devices"; "n_gpu_layers"; "devices"; "flash_attn_type";
             "kv_unified"; "n_parallel" ] ->
       p !! k = Obj.own_enumerable x !! k) /\
    Forall (fun k => p !! k = Obj.own_enumerable x !! k)
      [ "n_batch"; "n_ubatch"; "n_threads"; "cache_type_k"; "cache_type_v" ] /\
    (Obj.own_enumerable x = ∅ ->
     Forall (fun k => p !! k = createDefaultContextInitParams os !! k)
       [ "version"; "use_mlock"; "use_mmap"; "devices"; "n_gpu_layers";
         "flash_attn_type"; "kv_unified"; "n_parallel" ] /\
     p !! "no_gpu_devices" = Some (JBool false) /\
     Forall (fun k => p !! k = None)
       [ "n_ctx"; "n_batch"; "n_ubatch"; "n_threads"; "cache_type_k";
         "cache_type_v" ] /\
     dom p = list_to_set
       [ "version"; "use_mlock"; "use_mmap"; "devices"; "n_gpu_layers";
         "flash_attn_type"; "kv_unified"; "n_parallel"; "no_gpu_devices" ]).
Proof.
  destruct (migrate_frame os x) as (p & Hp & Hframe).
  exists p. split; [exact Hp|]. split; [exact Hframe|]. split.
  - repeat constructor; apply Hframe; unfold written_fields;
      rewrite !elem_of_cons, elem_of_nil; intuition discriminate.
  - intros He. unfold migrateContextInitParams in Hp. rewrite He in Hp.
    apply Ok_inj in Hp. subst p.
    destruct os; (split; [|split; [|split]]);
      repeat constructor; vm_compute; reflexivity.
Qed.

Lemma migrateContextInitParams_never_raises_witness :
  exists p, migrateContextInitParams android JNull = Ok p /\
    Forall (fun k => p !! k = createDefaultContextInitParams android !! k)
      [ "version"; "use_mlock"; "use_mmap"; "devices"; "n_gpu_layers";
        "flash_attn_type"; "kv_unified"; "n_parallel" ] /\
    p !! "no_gpu_devices" = Some (JBool false) /\
    Forall (fun k => p !! k = None)
      [ "n_ctx"; "n_batch"; "n_ubatch"; "n_threads"; "cache_type_k";
        "cache_type_v" ] /\
    dom p = list_to_set
      [ "version"; "use_mlock"; "use_mmap"; "devices"; "n_gpu_layers";
        "flash_attn_type"; "kv_unified"; "n_parallel"; "no_gpu_devices" ].
Proof.
  destruct (migrateContextInitParams_never_raises android JNull)
    as (p & Hp & _ & _ & Hempty).
  exists p. split; [exact Hp|]. apply Hempty. reflexivity.
Defined.

Example version_order :
  Version.earlier "0.0" "1.0" = true /\ Version.earlier "1.0" "2.0" = true /\
  Version.earlier "2.0" "10.0" = true /\ Version.earlier "2.0" "2.0" = false.
Proof. repeat split; reflexivity. Qed.

(** C4, as the code has it. The claim fails for a version newer than the
    migrator knows: a blob tagged ["3.0"] comes back tagged ["2.0"], an
    earlier schema version. *)
Lemma migrateContextInitParams_version_goes_back :
  Obj.get (Obj.own_enumerable (JObj {[ "version" := JStr "3.0" ]})) "version"
    = JStr "3.0" /\
  field_of "version"
    (migrateContextInitParams android (JObj {[ "version" := JStr "3.0" ]}))
    = Some (JStr "2.0") /\
  field_of "version"
    (migrateContextInitParams ios (JObj {[ "version" := JStr "3.0" ]}))
    = Some (JStr "2.0") /\
  Version.earlier "2.0" "3.0" = true.
Proof. repeat split; vm_compute; reflexivity. Qed.

(** C4 (amended). The version of a migrated blob is the current schema
    version ["2.0"], whatever version the blob carried; so it is never an
    earlier version than that of a blob tagged with a version that is not
    newer than ["2.0"], the known versions ["0.0"], ["1.0"], ["2.0"] among
    them, and a blob tagged with a newer version is stamped with ["2.0"] all
    the same. *)
Theorem migrateContextInitParams_version (os : PlatformOS) (x : JsVal) :
  exists p,
    migrateContextInitParams os x = Ok p /\
    p !! "version" = Some (JStr "2.0") /\
    Forall (fun v => Version.earlier "2.0" v = false) ["0.0"; "1.0"; "2.0"] /\
    (forall (v : string) (major minor : N),
       Version.parse v = Some (major, minor) ->
       (major < 2 \/ (major = 2 /\ minor = 0))%N ->
       Version.earlier "2.0" v = false).
Proof.
  destruct (migrate_stamped os x) as [q Hq]. eexists.
  split; [exact Hq|]. split; [|split].
  - apply lookup_insert_eq.
  - repeat constructor.
  - intros v major minor Hv Hle. unfold Version.earlier. rewrite Hv.
    change (Version.parse "2.0") with (Some (2, 0)%N).
    destruct Hle as [Hlt | [-> ->]].
    + replace (2 <? major)%N with false by (symmetry; apply N.ltb_ge; lia).
      replace (2 =? major)%N with false by (symmetry; apply N.eqb_neq; lia).
      reflexivity.
    + reflexivity.
Qed.

Lemma migrateContextInitParams_version_witness :
  Version.earlier "2.0" "1.0" = false.
Proof.
  destruct (migrateContextInitParams_version android JNull)
    as (p & _ & _ & _ & Hle).
  apply (Hle "1.0" 1%N 0%N); [reflexivity | left; reflexivity].
Defined.

(** ** Validator *)

Lemma every_in_object (m : gmap string JsVal) (l : list string) :
  every (fun field => js_in field (JObj m)) l
  = Ok (forallb (fun field => Obj.has field m) l).
Proof.
  induction l as [|k l IH]; [reflexivity|].
  cbn. destruct (Obj.has k m); [exact IH | reflexivity].
Qed.

Lemma has_is_Some (k : string) (m : gmap string JsVal) :
  Obj.has k m = true <-> is_Some (m !! k).
Proof.
  unfold Obj.has. destruct (m !! k) as [v|]; split; intros H;
    try reflexivity; try discriminate; eauto.
  destruct H as [v H]. discriminate H.
Qed.

(** C9, as the code has it. The claim fails: an object with the ten fields
    of the first schema and without [flash_attn_type], [kv_unified] and
    [n_parallel] is accepted. *)
Lemma validateContextInitParams_accepts_v1_fields :
  let value : gmap string JsVal :=
    list_to_map
      [ ("version", JStr "2.0"); ("n_ctx", JNum 2048%float);
        ("n_batch", JNum 512%float); ("n_ubatch", JNum 512%float);
        ("n_threads", JNum 4%float); ("cache_type_k", JStr "f16");
        ("cache_type_v", JStr "f16"); ("n_gpu_layers", JNum 99%float);
        ("use_mlock", JBool false); ("use_mmap", JStr "true") ] in
  validateContextInitParams (JObj value) = Ok true /\
  value !! "flash_attn_type" = None /\
  value !! "kv_unified" = None /\
  value !! "n_parallel" = None.
Proof. repeat split; vm_compute; reflexivity. Qed.

Lemma pretty_N_char_digit (n : N) : Version.digit (pretty_N_char n) <> None.
Proof.
  unfold pretty_N_char. repeat case_match; vm_compute; discriminate.
Qed.

Lemma pretty_N_go_digit (x : N) (s : string) :
  starts_with_digit s -> starts_with_digit (pretty_N_go x s).
Proof.
  revert s. induction (N.lt_wf_0 x) as [x _ IH]. intros s Hs.
  destruct (decide (x = 0)%N) as [-> | Hx].
  - rewrite pretty_N_go_0. exact Hs.
  - rewrite pretty_N_go_step by lia. apply IH.
    + apply N.div_lt; lia.
    + apply pretty_N_char_digit.
Qed.

Lemma index_key_digit (i : nat) : starts_with_digit (Obj.index_key i).
Proof.
  unfold Obj.index_key, pretty, pretty_nat, pretty, pretty_N.
  case_decide.
  - vm_compute. discriminate.
  - apply pretty_N_go_digit. exact I.
Qed.

(** An array has no property named [version]. *)
Lemma array_has_no_version (l : list JsVal) :
  Obj.has "version" (Obj.own_enumerable (JArr l)) = false.
Proof.
  unfold Obj.has. cbn [Obj.own_enumerable].
  destruct (list_to_map _ !! "version") as [v|] eqn:E; [|reflexivity].
  apply elem_of_list_to_map_2, elem_of_lookup_imap in E.
  destruct E as (i & y & Heq & _). injection Heq as Hk _.
  pose proof (index_key_digit i) as Hd. rewrite <- Hk in Hd.
  exfalso. apply Hd. reflexivity.
Qed.

(** On a value that is not an object the validator does not answer [true]:
    it answers [false] for an array and throws for anything else. *)
Lemma validateContextInitParams_non_object (value : JsVal) :
  match value with
  | JObj _ => True
  | JArr _ => validateContextInitParams value = Ok false
  | _ => exists e, validateContextInitParams value = Throw e
  end.
Proof.
  destruct value; try exact I; try (eexists; reflexivity).
  unfold validateContextInitParams, requiredFields.
  cbn [every js_in]. rewrite array_has_no_version. reflexivity.
Qed.

(** C9 (amended). [validateContextInitParams] returns [true] if and only if
    its argument is an object in which [version], [n_ctx], [n_batch],
    [n_ubatch], [n_threads], [cache_type_k], [cache_type_v], [n_gpu_layers],
    [use_mlock] and [use_mmap] are present; for an object it returns [false]
    otherwise, and [flash_attn_type], [kv_unified], [n_parallel] and [devices]
    are not looked at. *)
Theorem validateContextInitParams_fields (value : JsVal) :
  (validateContextInitParams value = Ok true <->
   exists m : gmap string JsVal,
     value = JObj m /\
     Forall (fun k => is_Some (m !! k))
       [ "version"; "n_ctx"; "n_batch"; "n_ubatch"; "n_threads";
         "cache_type_k"; "cache_type_v"; "n_gpu_layers"; "use_mlock";
         "use_mmap" ]) /\
  (forall m : gmap string JsVal,
     value = JObj m ->
     (exists b, validateContextInitParams value = Ok b) /\
     (forall (k : string) (v : JsVal),
        k ∈ ["flash_attn_type"; "kv_unified"; "n_parallel"; "devices"] ->
        validateContextInitParams (JObj (<[k := v]> m))
          = validateContextInitParams value /\
        validateContextInitParams (JObj (delete k m))
          = validateContextInitParams value)).
Proof.
  assert (Hobj : forall m : gmap string JsVal,
            validateContextInitParams (JObj m) = Ok true <->
            Forall (fun k => is_Some (m !! k))
              [ "version"; "n_ctx"; "n_batch"; "n_ubatch"; "n_threads";
                "cache_type_k"; "cache_type_v"; "n_gpu_layers"; "use_mlock";
                "use_mmap" ]).
  { intros m. unfold validateContextInitParams. rewrite every_in_object.
    rewrite Forall_forall. unfold requiredFields. split.
    - intros H k Hk. apply Ok_inj in H.
      rewrite forallb_forall in H.
      apply has_is_Some, H, list_elem_of_In, Hk.
    - intros H. f_equal. apply forallb_forall. intros k Hk.
      apply has_is_Some, H, list_elem_of_In, Hk. }
  split.
  - split.
    + intros Hv. pose proof (validateContextInitParams_non_object value) as Hn.
      destruct value as [| | b | x | s | l | m].
      1-5: destruct Hn as [e He]; rewrite He in Hv; discriminate Hv.
      1: rewrite Hn in Hv; discriminate Hv.
      exists m. split; [reflexivity|]. apply Hobj, Hv.
    + intros (m & -> & Hm). apply Hobj, Hm.
  - intros m ->. unfold validateContextInitParams. split.
    + rewrite every_in_object. eexists. reflexivity.
    + intros k v Hk. rewrite !every_in_object.
      unfold Obj.has, requiredFields. cbn [forallb].
      split; f_equal;
        repeat (apply elem_of_cons in Hk as [-> | Hk];
                [ rewrite ?lookup_insert_ne, ?lookup_delete_ne by discriminate;
                  reflexivity | ]);
        apply elem_of_nil in Hk; destruct Hk.
Qed.

Lemma validateContextInitParams_fields_witness :
  validateContextInitParams
    (JObj (<["devices" := JArr [JStr "CPU"]]>
             (createDefaultContextInitParams android)))
  = validateContextInitParams (JObj (createDefaultContextInitParams android)).
Proof.
  apply (proj1 (proj2 (proj2 (validateContextInitParams_fields
                  (JObj (createDefaultContextInitParams android)))
               (createDefaultContextInitParams android) eq_refl)
               "devices" (JArr [JStr "CPU"]) ltac:(in_list))).
Defined.

(** ** Backend resolver *)

Lemma equal_ignoring_case_lower (a b : string) :
  equal_ignoring_case a b
  = Js.str_eq (Js.toLowerCase a) (Js.toLowerCase b).
Proof.
  revert b. induction a as [|x a IH]; intros [|y b]; try reflexivity.
  cbn [equal_ignoring_case Js.toLowerCase]. unfold Js.str_eq in *.
  cbn [String.eqb]. rewrite IH.
  destruct (Ascii.eqb (Js.lower_ascii x) (Js.lower_ascii y)); reflexivity.
Qed.

(** A name that starts with [HTP] is neither [metal] nor [cpu], in any
    letter case. *)
Lemma startsWith_HTP_lower (d : string) :
  Js.startsWith d "HTP" = true ->
  Js.str_eq (Js.toLowerCase d) "metal" = false /\
  Js.str_eq (Js.toLowerCase d) "cpu" = false.
Proof.
  unfold Js.startsWith. destruct d as [|c d]; [discriminate|].
  cbn [String.prefix]. destruct (ascii_dec "H" c) as [<-|]; [|discriminate].
  intros _. split; reflexivity.
Qed.

Lemma has_gpu_Exists (l : list NativeBackendDeviceInfo) :
  existsb (fun d => Js.str_eq (type d) "gpu") l = true
  <-> Exists (fun d => type d = "gpu") l.
Proof.
  rewrite existsb_exists, Exists_exists. unfold Js.str_eq.
  split; intros (d & Hin & Hd); exists d; split; try assumption.
  - apply list_elem_of_In, Hin.
  - apply String.eqb_eq, Hd.
  - apply list_elem_of_In, Hin.
  - apply String.eqb_eq, Hd.
Qed.

Example inferBackendType_tests :
  inferBackendType ios None (Ok None) = metal /\
  inferBackendType ios (Some []) (Ok None) = metal /\
  inferBackendType ios (Some ["CPU"]) (Ok None) = cpu /\
  inferBackendType ios (Some ["blah-blah"]) (Ok None) = cpu /\
  inferBackendType android (Some ["CPU"]) (Ok (Some [])) = cpu /\
  inferBackendType android None (Ok (Some [])) = cpu /\
  inferBackendType android (Some ["GPU:0"]) (Ok (Some [])) = opencl /\
  inferBackendType android (Some ["HTP:1"]) (Ok (Some [])) = hexagon.
Proof. repeat split; reflexivity. Qed.

(** C5. [inferBackendType] follows the ordered rules of section 4.3. With a
    non-empty list, the first entry decides: [metal] or [cpu] in any letter
    case give that backend, a name that starts with [HTP] gives [hexagon],
    any other name gives [opencl] on Android and [cpu] elsewhere. With no
    list or an empty one, iOS gives [metal]; Android gives [opencl] when the
    probe reports a device of type [gpu] and [cpu] when it does not, a failed
    probe included. *)
Theorem inferBackendType_rules (os : PlatformOS) (probe : ProbeOutcome) :
  (forall (d : string) (rest : list string),
     let r := inferBackendType os (Some (d :: rest)) probe in
     (equal_ignoring_case d "metal" = true -> r = metal) /\
     (equal_ignoring_case d "cpu" = true -> r = cpu) /\
     (Js.startsWith d "HTP" = true -> r = hexagon) /\
     (equal_ignoring_case d "metal" = false ->
      equal_ignoring_case d "cpu" = false ->
      Js.startsWith d "HTP" = false ->
      (os = android -> r = opencl) /\ (os <> android -> r = cpu))) /\
  (forall devices : option (list string),
     devices = None \/ devices = Some [] ->
     let r := inferBackendType os devices probe in
     (os = ios -> r = metal) /\
     (os = android ->
      (Exists (fun d => type d = "gpu") (getAvailableDevices probe) ->
       r = opencl) /\
      (~ Exists (fun d => type d = "gpu") (getAvailableDevices probe) ->
       r = cpu) /\
      (forall e, probe = Throw e -> r = cpu))).
Proof.
  split.
  - intros d rest r. subst r. unfold inferBackendType.
    rewrite !equal_ignoring_case_lower.
    change (Js.toLowerCase "metal") with "metal".
    change (Js.toLowerCase "cpu") with "cpu".
    refine (conj _ (conj _ (conj _ _))).
    + intros ->. reflexivity.
    + intros Hc. rewrite Hc.
      destruct (Js.str_eq (Js.toLowerCase d) "metal") eqn:Hm; [|reflexivity].
      unfold Js.str_eq in *. apply String.eqb_eq in Hm, Hc.
      rewrite Hm in Hc. discriminate Hc.
    + intros Hh. destruct (startsWith_HTP_lower d Hh) as [-> ->].
      rewrite Hh. reflexivity.
    + intros -> -> ->. split.
      * intros ->. reflexivity.
      * intros Hos. destruct os; [reflexivity|congruence|reflexivity].
  - intros devices Hd r. subst r.
    assert (Hauto : inferBackendType os devices probe
                    = if is_ios os then metal
                      else if existsb (fun d => Js.str_eq (type d) "gpu")
                                (getAvailableDevices probe)
                           then opencl else cpu)
      by (destruct Hd as [-> | ->]; reflexivity).
    rewrite Hauto. split; [intros ->; reflexivity|].
    intros ->. cbn [is_ios]. refine (conj _ (conj _ _)).
    + intros Hg. apply has_gpu_Exists in Hg. rewrite Hg. reflexivity.
    + intros Hg.
      destruct (existsb _ (getAvailableDevices probe)) eqn:He; [|reflexivity].
      apply has_gpu_Exists in He. contradiction.
    + intros e ->. reflexivity.
Qed.

Lemma inferBackendType_rules_witness :
  inferBackendType android None
    (Ok (Some [mkDeviceInfo "Adreno (TM) 740" "gpu"])) = opencl.
Proof.
  apply (proj2 (inferBackendType_rules android
                  (Ok (Some [mkDeviceInfo "Adreno (TM) 740" "gpu"]))) None).
  - left. reflexivity.
  - reflexivity.
  - apply Exists_cons_hd. reflexivity.
Defined.

(** ** Device catalog *)

Lemma find_existsb_false {A : Type} (f : A -> bool) (l : list A) :
  existsb f l = false -> List.find f l = None.
Proof.
  induction l as [|x l IH]; [reflexivity|].
  cbn [existsb List.find]. destruct (f x); [discriminate | exact IH].
Qed.

Lemma filter_existsb_false {A : Type} (f : A -> bool) (l : list A) :
  existsb f l = false -> List.filter f l = [].
Proof.
  induction l as [|x l IH]; [reflexivity|].
  cbn [existsb List.filter]. destruct (f x); [discriminate | exact IH].
Qed.

(** The three options the Android branch can return. *)
Lemma getDeviceOptions_android_ids (os : PlatformOS) (probe : ProbeOutcome) :
  os <> ios ->
  map DeviceOption.id (getDeviceOptions os probe)
  = ([id_cpu]
     ++ (if existsb (fun d => Js.str_eq (type d) "gpu")
              (getAvailableDevices probe)
         then [id_gpu] else [])
     ++ (if existsb (fun d => Js.startsWith (deviceName d) "HTP")
              (getAvailableDevices probe)
         then [id_hexagon] else []))%list.
Proof.
  intros Hos. unfold getDeviceOptions.
  replace (is_ios os) with false by (destruct os; cbn; congruence).
  set (devs := getAvailableDevices probe). cbv zeta.
  rewrite !map_app. f_equal. f_equal.
  - induction devs as [|d devs IH]; [reflexivity|].
    cbn [List.find existsb]. destruct (Js.str_eq (type d) "gpu");
      [reflexivity | exact IH].
  - assert (Hh : (0 <? length (List.filter
                     (fun d => Js.startsWith (deviceName d) "HTP") devs))%nat
                 = existsb (fun d => Js.startsWith (deviceName d) "HTP") devs).
    { induction devs as [|d devs IH]; [reflexivity|].
      cbn [List.filter existsb].
      destruct (Js.startsWith (deviceName d) "HTP"); [reflexivity | exact IH]. }
    rewrite Hh. destruct (existsb _ devs); reflexivity.
Qed.

Lemma starts_HTP_Exists (l : list NativeBackendDeviceInfo) :
  existsb (fun d => Js.startsWith (deviceName d) "HTP") l = true
  <-> Exists (fun d => Js.startsWith (deviceName d) "HTP" = true) l.
Proof.
  rewrite existsb_exists, Exists_exists.
  split; intros (d & Hin & Hd); exists d; split; try assumption;
    apply list_elem_of_In, Hin.
Qed.

Example getDeviceOptions_android_full :
  map DeviceOption.id
    (getDeviceOptions android
       (Ok (Some [ mkDeviceInfo "Adreno (TM) 740" "gpu";
                   mkDeviceInfo "HTP0" "gpu" ])))
  = [id_cpu; id_gpu; id_hexagon].
Proof. reflexivity. Qed.

(** C7. On Android, when the probe reports no device of type [gpu] and no
    device whose name starts with [HTP], [getDeviceOptions] returns exactly
    one option, the [cpu] one, with [n_gpu_layers = 0] and default flash
    attention [off]. A [gpu] option is in the list exactly when the probe
    reports a device of type [gpu], and a [hexagon] option exactly when it
    reports a device whose name starts with [HTP]. *)
Theorem getDeviceOptions_android (probe : ProbeOutcome) :
  let reported := getAvailableDevices probe in
  let options := getDeviceOptions android probe in
  (~ Exists (fun d => type d = "gpu") reported ->
   ~ Exists (fun d => Js.startsWith (deviceName d) "HTP" = true) reported ->
   exists o, options = [o] /\
     DeviceOption.id o = id_cpu /\
     DeviceOption.n_gpu_layers o = 0%float /\
     DeviceOption.default_flash_attn_type o = fa_off) /\
  (Exists (fun o => DeviceOption.id o = id_gpu) options
   <-> Exists (fun d => type d = "gpu") reported) /\
  (Exists (fun o => DeviceOption.id o = id_hexagon) options
   <-> Exists (fun d => Js.startsWith (deviceName d) "HTP" = true) reported).
Proof.
  intros reported options.
  assert (Hids := getDeviceOptions_android_ids android probe ltac:(discriminate)).
  fold reported options in Hids.
  assert (Hex : forall i, Exists (fun o => DeviceOption.id o = i) options
                          <-> i ∈ map DeviceOption.id options).
  { intros i. rewrite Exists_exists, list_elem_of_fmap.
    split; intros (o & H1 & H2); exists o; split; auto. }
  refine (conj _ (conj _ _)).
  - intros Hg Hh.
    rewrite <- has_gpu_Exists in Hg. rewrite <- starts_HTP_Exists in Hh.
    apply not_true_is_false in Hg, Hh.
    eexists. split.
    + subst options. unfold getDeviceOptions. cbn [is_ios].
      fold reported. cbv zeta.
      rewrite (find_existsb_false _ _ Hg), (filter_existsb_false _ _ Hh).
      reflexivity.
    + repeat split.
  - rewrite Hex, Hids, <- has_gpu_Exists.
    destruct (existsb (fun d => Js.str_eq (type d) "gpu") reported);
      destruct (existsb _ reported); cbn;
      rewrite ?elem_of_cons, ?elem_of_nil; split; intros H;
      try reflexivity; try discriminate; intuition discriminate.
  - rewrite Hex, Hids, <- starts_HTP_Exists.
    destruct (existsb (fun d => Js.str_eq (type d) "gpu") reported);
      destruct (existsb _ reported); cbn;
      rewrite ?elem_of_cons, ?elem_of_nil; split; intros H;
      try reflexivity; try discriminate; intuition discriminate.
Qed.

Lemma getDeviceOptions_android_witness :
  exists o, getDeviceOptions android (Throw (NativeError "probe failed")) = [o] /\
    DeviceOption.id o = id_cpu /\
    DeviceOption.n_gpu_layers o = 0%float /\
    DeviceOption.default_flash_attn_type o = fa_off.
Proof.
  apply (proj1 (getDeviceOptions_android
                  (Throw (NativeError "probe failed"))));
    cbn; intros H; inversion H.
Defined.

(** C8. Every option that [getDeviceOptions] returns, on every platform and
    for every outcome of the probe, has its default flash-attention mode among
    its valid modes; so its list of valid modes is not empty. *)
Theorem getDeviceOptions_default_valid (os : PlatformOS) (probe : ProbeOutcome) :
  Forall (fun o => default_is_valid o
                   /\ DeviceOption.valid_flash_attn_types o <> [])
         (getDeviceOptions os probe).
Proof.
  assert (Hne : forall o, default_is_valid o ->
                  default_is_valid o
                  /\ DeviceOption.valid_flash_attn_types o <> []).
  { intros o Ho. split; [exact Ho|]. unfold default_is_valid in Ho.
    intros Hnil. rewrite Hnil in Ho. apply elem_of_nil in Ho. exact Ho. }
  unfold getDeviceOptions. destruct (is_ios os).
  - repeat constructor; apply Hne; unfold default_is_valid; cbn; in_list.
  - cbv zeta. repeat apply Forall_app_2.
    + repeat constructor; apply Hne; unfold default_is_valid; cbn; in_list.
    + destruct (List.find _ _); repeat constructor.
      apply Hne; unfold default_is_valid; cbn; in_list.
    + destruct (0 <? _)%nat; repeat constructor.
      apply Hne; unfold default_is_valid; cbn; in_list.
Qed.

(** ** Device selection *)

Example handleDeviceSelect_gpu_auto_to_off :
  let gpu_option :=
    DeviceOption.mk id_gpu "GPU (OpenCL)"
      "OpenCL GPU acceleration (Only for Q4_0/Q6_K models)"
      (Some ["Adreno (TM) 740"]) 99%float fa_off [fa_off]
      (Some Fastest) None platform_android None in
  let st :=
    SimpleStore.mk
      (ContextInitParams.mk "2.0" 2048 512 512 4 "f16" "f16" 0 false
         "smart" (Some ["CPU"]) (Some fa_auto) true 1) in
  SimpleStore.contextInitParams
    (snd (SimpleStore.handleDeviceSelect android gpu_option st))
  = ContextInitParams.mk "2.0" 2048 512 512 4 "f16" "f16" 0 false
      "smart" (Some ["Adreno (TM) 740"]) (Some fa_off) true 1.
Proof. reflexivity. Qed.

Section DeviceSelectionFacts.

Context {ModelStore : Type}.
Variable contextInitParams : ModelStore -> ContextInitParams.t.
Variable setDevices : option (list string) -> StoreM ModelStore unit.
Variable setFlashAttnType : FlashAttnType -> StoreM ModelStore unit.

(** [modelStore.contextInitParams.flash_attn_type]. *)
Let flash_attn (st : ModelStore) : option FlashAttnType :=
  ContextInitParams.flash_attn_type (contextInitParams st).

(** What the two setters are taken to do to [flash_attn_type]. *)
Hypothesis setDevices_keeps_flash_attn :
  forall d st, flash_attn (snd (setDevices d st)) = flash_attn st.
Hypothesis setFlashAttnType_sets :
  forall f st, flash_attn (snd (setFlashAttnType f st)) = Some f.

(** What the handler leaves in [flash_attn_type]. *)
Lemma handleDeviceSelect_after
    (os : PlatformOS) (option : DeviceOption.t) (st : ModelStore) :
  let current :=
    default (if is_ios os then fa_auto else fa_off) (flash_attn st) in
  flash_attn
    (snd (handleDeviceSelect contextInitParams setDevices setFlashAttnType
            os option st))
  = if bool_decide (current ∈ DeviceOption.valid_flash_attn_types option)
    then flash_attn st
    else Some (DeviceOption.default_flash_attn_type option).
Proof.
  intros current.
  unfold handleDeviceSelect, mbind, StoreM_bind, readStore, includes_fa.
  pose proof (setDevices_keeps_flash_attn (DeviceOption.devices option) st)
    as Hkeep.
  destruct (setDevices (DeviceOption.devices option) st) as [[] st1].
  cbn [snd] in Hkeep. cbn beta iota. fold (flash_attn st1).
  rewrite Hkeep. fold current.
  destruct (bool_decide _); cbn [negb].
  - cbn. exact Hkeep.
  - apply setFlashAttnType_sets.
Qed.

(** C6. Selecting a device option sets [flash_attn_type] to the option's
    default exactly when the configured [flash_attn_type] is not among the
    option's valid modes, and leaves it as it is when it is among them; so
    selecting an option whose only valid mode is [off] while the configured
    mode is [auto] changes it to [off]. When the field is unset, the
    platform default stands for it in the test. *)
Theorem handleDeviceSelect_flash_attn
    (os : PlatformOS) (option : DeviceOption.t) (st : ModelStore) :
  let before := flash_attn st in
  let after :=
    flash_attn
      (snd (handleDeviceSelect contextInitParams setDevices
              setFlashAttnType os option st)) in
  (forall f : FlashAttnType,
     before = Some f ->
     (f ∉ DeviceOption.valid_flash_attn_types option ->
      after = Some (DeviceOption.default_flash_attn_type option)) /\
     (f ∈ DeviceOption.valid_flash_attn_types option -> after = Some f)) /\
  (before = None ->
   let current := if is_ios os then fa_auto else fa_off in
   (current ∉ DeviceOption.valid_flash_attn_types option ->
    after = Some (DeviceOption.default_flash_attn_type option)) /\
   (current ∈ DeviceOption.valid_flash_attn_types option ->
    after = None)) /\
  (DeviceOption.valid_flash_attn_types option = [fa_off] ->
   DeviceOption.default_flash_attn_type option = fa_off ->
   before = Some fa_auto ->
   after = Some fa_off).
Proof.
  intros before after. subst after.
  rewrite handleDeviceSelect_after. fold before.
  refine (conj _ (conj _ _)).
  - intros f ->. cbn [default]. split; intros H.
    + rewrite bool_decide_eq_false_2 by exact H. reflexivity.
    + rewrite bool_decide_eq_true_2 by exact H. reflexivity.
  - intros ->. cbn [default]. split; intros H.
    + rewrite bool_decide_eq_false_2 by exact H. reflexivity.
    + rewrite bool_decide_eq_true_2 by exact H. reflexivity.
  - intros -> -> ->. reflexivity.
Qed.

End DeviceSelectionFacts.

Lemma handleDeviceSelect_flash_attn_witness :
  ContextInitParams.flash_attn_type
    (SimpleStore.contextInitParams
       (snd (handleDeviceSelect SimpleStore.contextInitParams
               SimpleStore.setDevices SimpleStore.setFlashAttnType
               android
               (DeviceOption.mk id_gpu "GPU (OpenCL)"
                  "OpenCL GPU acceleration (Only for Q4_0/Q6_K models)"
                  (Some ["Adreno (TM) 740"]) 99%float fa_off [fa_off]
                  (Some Fastest) None platform_android None)
               (SimpleStore.mk
                  (ContextInitParams.mk "2.0" 2048 512 512 4 "f16" "f16" 0
                     false "smart" (Some ["CPU"]) (Some fa_auto) true 1)))))
  = Some fa_off.
Proof.
  apply (proj1 (proj1 (handleDeviceSelect_flash_attn
                  SimpleStore.contextInitParams
                  SimpleStore.setDevices SimpleStore.setFlashAttnType
                  (fun d st => eq_refl) (fun f st => eq_refl)
                  android
                  (DeviceOption.mk id_gpu "GPU (OpenCL)"
                     "OpenCL GPU acceleration (Only for Q4_0/Q6_K models)"
                     (Some ["Adreno (TM) 740"]) 99%float fa_off [fa_off]
                     (Some Fastest) None platform_android None)
                  (SimpleStore.mk
                     (ContextInitParams.mk "2.0" 2048 512 512 4 "f16" "f16" 0
                        false "smart" (Some ["CPU"]) (Some fa_auto) true 1)))
                fa_auto eq_refl)).
  cbn. intros H. apply list_elem_of_singleton in H. discriminate H.
Defined.

(** * Further properties of the code *)

(** ** Rule engine *)

(** X1. Whatever string stands for the cache type, [isCacheTypeVSafe] gives
    a reason exactly when its verdict is unsafe. *)
Theorem isCacheTypeVSafe_reason_iff_unsafe
    (s : string) (f : FlashAttnType) (b : BackendType) :
  safe (isCacheTypeVSafe s f b) = false
  <-> is_Some (reason (isCacheTypeVSafe s f b)).
Proof.
  unfold isCacheTypeVSafe.
  destruct (isQuantizedCacheType s), f, b; cbn; split; intros H;
    try reflexivity; try discriminate H; try (eexists; reflexivity);
    destruct H as [r H]; discriminate H.
Qed.

(** X2. The verdict looks at the cache type only to tell [f16] and [f32]
    from the rest: two strings that are both quantized get the same verdict,
    reason included, for every mode and backend. *)
Theorem isCacheTypeVSafe_quantized_alike
    (s1 s2 : string) (f : FlashAttnType) (b : BackendType) :
  s1 <> "f16" -> s1 <> "f32" -> s2 <> "f16" -> s2 <> "f32" ->
  isCacheTypeVSafe s1 f b = isCacheTypeVSafe s2 f b.
Proof.
  intros H1 H1' H2 H2'. unfold isCacheTypeVSafe.
  rewrite (isQuantizedCacheType_other s1 H1 H1').
  rewrite (isQuantizedCacheType_other s2 H2 H2'). reflexivity.
Qed.

Lemma isCacheTypeVSafe_quantized_alike_witness :
  isCacheTypeVSafe "q8_0" fa_auto hexagon
  = isCacheTypeVSafe "q6_k" fa_auto hexagon.
Proof.
  apply (isCacheTypeVSafe_quantized_alike "q8_0" "q6_k" fa_auto hexagon);
    discriminate.
Defined.

(** X3. OpenCL and Hexagon are the most restrictive backends, and [off] the
    most restrictive mode: a cache type that is safe on [opencl] or on
    [hexagon] is safe on every backend in the same mode, and one that is safe
    with flash attention off is safe in every mode on every backend. *)
Theorem isCacheTypeVSafe_most_restrictive
    (s : string) (f : FlashAttnType) (b : BackendType) :
  ((safe (isCacheTypeVSafe s f opencl) = true
    \/ safe (isCacheTypeVSafe s f hexagon) = true) ->
   safe (isCacheTypeVSafe s f b) = true) /\
  (forall b0 : BackendType,
     safe (isCacheTypeVSafe s fa_off b0) = true ->
     safe (isCacheTypeVSafe s f b) = true).
Proof.
  unfold isCacheTypeVSafe.
  destruct (isQuantizedCacheType s); cbn; split.
  - destruct f; cbn; intros [H | H]; discriminate H.
  - intros b0 H. discriminate H.
  - intros _. reflexivity.
  - intros b0 _. reflexivity.
Qed.

Lemma isCacheTypeVSafe_most_restrictive_witness :
  safe (isCacheTypeVSafe "f32" fa_on metal) = true.
Proof.
  apply (proj1 (isCacheTypeVSafe_most_restrictive "f32" fa_on metal)).
  left. reflexivity.
Defined.

Lemma allOptions_values :
  map fst allOptions = [F16; F32; Q8_0; Q5_1; Q5_0; Q4_1; Q4_0; IQ4_NL].
Proof. reflexivity. Qed.

(** X4. [getAllowedCacheTypeVOptions] returns one entry for each of the
    eight cache types, in the order of the enum, and drops none. An entry is
    disabled exactly when its type is quantized and either flash attention
    is off or the backend is [opencl] or [hexagon]; a disabled entry, and
    only a disabled one, carries a reason. *)
Theorem getAllowedCacheTypeVOptions_entries
    (f : FlashAttnType) (b : BackendType) :
  map CacheOption.value (getAllowedCacheTypeVOptions f b)
    = [F16; F32; Q8_0; Q5_1; Q5_0; Q4_1; Q4_0; IQ4_NL] /\
  Forall (fun o =>
            (CacheOption.disabled o = true <->
             SpecTable.quantized (CacheOption.value o) = true /\
             (f = fa_off \/ b = opencl \/ b = hexagon)) /\
            (CacheOption.disabled o = true <->
             is_Some (CacheOption.reason o)))
         (getAllowedCacheTypeVOptions f b).
Proof.
  split.
  - unfold getAllowedCacheTypeVOptions. rewrite map_map. cbn [CacheOption.value].
    apply allOptions_values.
  - unfold getAllowedCacheTypeVOptions, allOptions. cbn [map fst snd].
    repeat apply Forall_cons_2; try apply Forall_nil_2;
      cbn [CacheOption.disabled CacheOption.value CacheOption.reason];
      destruct f, b; vm_compute;
      (split; split; intros H;
       first [ reflexivity | discriminate H | (eexists; reflexivity)
             | (split; [reflexivity | auto])
             | (destruct H as [H1 H2]; try discriminate H1;
                destruct H2 as [H2 | [H2 | H2]]; discriminate H2)
             | (destruct H as [r H]; discriminate H) ]).
Qed.

(** X5. [getAllowedCacheTypeKOptions] lists the same eight cache types and
    never disables one nor attaches a reason, whatever the mode and the
    backend. *)
Theorem getAllowedCacheTypeKOptions_all_enabled
    (f : FlashAttnType) (b : BackendType) :
  map CacheOption.value (getAllowedCacheTypeKOptions f b)
    = [F16; F32; Q8_0; Q5_1; Q5_0; Q4_1; Q4_0; IQ4_NL] /\
  Forall (fun o => CacheOption.disabled o = false
                   /\ CacheOption.reason o = None)
         (getAllowedCacheTypeKOptions f b).
Proof.
  split.
  - unfold getAllowedCacheTypeKOptions. rewrite map_map. cbn [CacheOption.value].
    apply allOptions_values.
  - unfold getAllowedCacheTypeKOptions. apply Forall_map.
    apply Forall_forall. intros o _. split; reflexivity.
Qed.

(** ** Factory *)

Lemma get_insert_ne (p : gmap string JsVal) (k k' : string) (v : JsVal) :
  k <> k' -> Obj.get (<[k := v]> p) k' = Obj.get p k'.
Proof. intros H. unfold Obj.get. rewrite lookup_insert_ne by exact H. reflexivity. Qed.

(** Reads a field of a chain of assignments to literal names. *)
Ltac lookup_chain :=
  repeat first
    [ rewrite lookup_insert_eq
    | rewrite lookup_insert_ne by discriminate
    | rewrite get_insert_eq
    | rewrite get_insert_ne by discriminate ].

Example createContextInitParams_overrides :
  let p := createContextInitParams android
             {[ "n_ctx" := JNum 4096%float; "use_mmap" := JBool false ]} in
  p !! "n_ctx" = Some (JNum 4096%float) /\
  p !! "use_mmap" = Some (JStr "false") /\
  p !! "n_batch" = Some (JNum 512%float) /\
  p !! "flash_attn_type" = Some (JStr "off").
Proof. repeat split; vm_compute; reflexivity. Qed.

Lemma with_properties_lookup
    (o : gmap string JsVal) (properties : list (string * JsVal)) (k : string) :
  with_properties o properties !! k
  = match last_written k properties with
    | Some v => Some v
    | None => o !! k
    end.
Proof.
  unfold with_properties. revert o.
  induction properties as [|[k' v] rest IH]; intros o; [reflexivity|].
  cbn [foldl last_written fst snd]. rewrite IH.
  destruct (last_written k rest); [reflexivity|].
  destruct (String.eqb_spec k' k) as [-> | Hne].
  - apply lookup_insert_eq.
  - apply lookup_insert_ne, Hne.
Qed.

(** A name outside a written-out list differs from each name of the list. *)
Ltac split_not_in H :=
  repeat (apply not_elem_of_cons in H;
          let Hne := fresh "Hne" in destruct H as [Hne H];
          apply not_eq_sym in Hne; apply String.eqb_neq in Hne).

(** The factory at a name it does not write. *)
Lemma createContextInitParams_frame
    (os : PlatformOS) (params : gmap string JsVal) (k : string) :
  k ∉ factory_fields ->
  createContextInitParams os params !! k = params !! k.
Proof.
  intros Hk. unfold createContextInitParams. rewrite with_properties_lookup.
  unfold factory_fields in Hk. split_not_in Hk.
  cbn [last_written fst snd].
  repeat match goal with Hne : String.eqb _ k = false |- _ =>
           rewrite Hne; clear Hne end.
  reflexivity.
Qed.

(** Reads a field with a literal name off what the factory returns. *)
Ltac factory_lookup :=
  unfold createContextInitParams; rewrite with_properties_lookup;
  cbn [last_written fst snd String.eqb Ascii.eqb Bool.eqb].

(** X6. Round trip of factory and validator: whatever object the factory is
    given, on every platform, the validator accepts what it returns. *)
Theorem validate_createContextInitParams
    (os : PlatformOS) (params : gmap string JsVal) :
  validateContextInitParams (JObj (createContextInitParams os params))
  = Ok true.
Proof.
  unfold validateContextInitParams. rewrite every_in_object.
  unfold requiredFields, Obj.has. cbn [forallb].
  unfold createContextInitParams. rewrite !with_properties_lookup.
  reflexivity.
Qed.

(** The factory stamps the current version. *)
Lemma createContextInitParams_version
    (os : PlatformOS) (params : gmap string JsVal) :
  createContextInitParams os params !! "version"
  = Some (JStr CURRENT_CONTEXT_INIT_PARAMS_VERSION).
Proof. factory_lookup. reflexivity. Qed.

(** X7. A configuration made by the factory is a fixed point of the
    migrator, also when the two run on different platforms: migrating it
    changes nothing. *)
Theorem migrate_createContextInitParams
    (os os' : PlatformOS) (params : gmap string JsVal) :
  migrateContextInitParams os' (JObj (createContextInitParams os params))
  = Ok (createContextInitParams os params).
Proof. apply migrate_current, createContextInitParams_version. Qed.

Lemma coalesce_idem (v d : JsVal) : coalesce (coalesce v d) d = coalesce v d.
Proof. destruct v, d; reflexivity. Qed.

Lemma coalesce_keeps (v d : JsVal) : nullish v = false -> coalesce v d = v.
Proof. destruct v; intros H; try discriminate H; reflexivity. Qed.

Lemma get_createDefault_empty (k : string) :
  Obj.get (∅ : gmap string JsVal) k = JUndefined.
Proof. unfold Obj.get. rewrite lookup_empty. reflexivity. Qed.

(** X8. With no parameter at all the factory returns the default
    configuration: [createContextInitParams({})] and
    [createDefaultContextInitParams()] are the same object, on every
    platform. *)
Theorem createContextInitParams_empty_is_default (os : PlatformOS) :
  createContextInitParams os ∅ = createDefaultContextInitParams os.
Proof.
  apply map_eq. intros k.
  destruct (decide (k ∈ factory_fields)) as [Hin | Hout].
  - unfold factory_fields in Hin.
    repeat (apply elem_of_cons in Hin as [-> | Hin]);
      try (apply elem_of_nil in Hin; destruct Hin);
      factory_lookup; rewrite ?get_createDefault_empty;
      destruct os; vm_compute; reflexivity.
  - rewrite createContextInitParams_frame by exact Hout.
    rewrite lookup_empty. symmetry.
    unfold createDefaultContextInitParams. apply not_elem_of_list_to_map_1.
    cbn [fmap list_fmap fst]. intros Hin. apply Hout.
    unfold factory_fields.
    repeat (apply elem_of_cons in Hin as [-> | Hin]; [in_list|]).
    apply elem_of_nil in Hin. destruct Hin.
Qed.

(** X9. The factory never replaces a value the caller gave: a field among
    those it defaults that holds a value other than [undefined] and [null]
    keeps that value, and a field it does not name passes through as it
    is. *)
Theorem createContextInitParams_keeps_given
    (os : PlatformOS) (params : gmap string JsVal) (k : string) :
  (forall v : JsVal,
     k ∈ [ "n_ctx"; "n_batch"; "n_ubatch"; "n_threads"; "cache_type_k";
           "cache_type_v"; "n_gpu_layers"; "use_mlock"; "flash_attn_type";
           "kv_unified"; "n_parallel" ] ->
     params !! k = Some v -> nullish v = false ->
     createContextInitParams os params !! k = Some v) /\
  (k ∉ [ "use_mmap"; "version"; "n_ctx"; "n_batch"; "n_ubatch"; "n_threads";
         "cache_type_k"; "cache_type_v"; "n_gpu_layers"; "use_mlock";
         "flash_attn_type"; "devices"; "kv_unified"; "n_parallel" ] ->
   createContextInitParams os params !! k = params !! k).
Proof.
  split.
  - intros v Hk Hv Hn.
    repeat (apply elem_of_cons in Hk as [-> | Hk]);
      try (apply elem_of_nil in Hk; destruct Hk);
      factory_lookup; rewrite (get_lookup _ _ _ Hv), (coalesce_keeps _ _ Hn);
      reflexivity.
  - apply createContextInitParams_frame.
Qed.

Lemma createContextInitParams_keeps_given_witness :
  createContextInitParams ios {[ "n_threads" := JNum 8%float ]} !! "n_threads"
  = Some (JNum 8%float).
Proof.
  apply (proj1 (createContextInitParams_keeps_given ios
                  {[ "n_threads" := JNum 8%float ]} "n_threads")).
  - in_list.
  - vm_compute. reflexivity.
  - reflexivity.
Defined.

Lemma coalesce_not_nullish (v d : JsVal) :
  nullish d = false -> nullish (coalesce v d) = false.
Proof. destruct v; intros H; try reflexivity; exact H. Qed.

(** X10. What the factory returns holds a value other than [undefined] and
    [null] in every field of the schema except [devices], and its [use_mmap]
    is never a boolean: it is the string form of the boolean given. *)
Theorem createContextInitParams_filled
    (os : PlatformOS) (params : gmap string JsVal) :
  Forall (fun k => exists v, createContextInitParams os params !! k = Some v
                             /\ nullish v = false)
    [ "version"; "n_ctx"; "n_batch"; "n_ubatch"; "n_threads"; "cache_type_k";
      "cache_type_v"; "n_gpu_layers"; "use_mlock"; "use_mmap";
      "flash_attn_type"; "kv_unified"; "n_parallel" ] /\
  (exists v, createContextInitParams os params !! "use_mmap" = Some v
             /\ typeof_boolean v = false) /\
  (forall b : bool,
     params !! "use_mmap" = Some (JBool b) ->
     createContextInitParams os params !! "use_mmap"
     = Some (JStr (if b then "true" else "false"))).
Proof.
  refine (conj _ (conj _ _)).
  - repeat apply Forall_cons_2; try apply Forall_nil_2;
      factory_lookup; eexists; (split; [reflexivity|]);
      try (apply coalesce_not_nullish; reflexivity); try reflexivity.
    destruct (Obj.get params "use_mmap") as [| |[]| | | |]; reflexivity.
  - factory_lookup. eexists. split; [reflexivity|].
    destruct (Obj.get params "use_mmap") as [| |[]| | | |]; reflexivity.
  - intros b Hb. factory_lookup. rewrite (get_lookup _ _ _ Hb).
    destruct b; reflexivity.
Qed.

Lemma createContextInitParams_filled_witness :
  createContextInitParams android {[ "use_mmap" := JBool true ]} !! "use_mmap"
  = Some (JStr "true").
Proof.
  apply (proj2 (proj2 (createContextInitParams_filled android
                         {[ "use_mmap" := JBool true ]})) true).
  vm_compute. reflexivity.
Defined.

Lemma get_of_lookup (p : gmap string JsVal) (k : string) :
  Obj.get p k = default JUndefined (p !! k).
Proof. reflexivity. Qed.

(** X11. The factory is idempotent: applied to its own result it returns
    that result. *)
Theorem createContextInitParams_idempotent
    (os : PlatformOS) (params : gmap string JsVal) :
  createContextInitParams os (createContextInitParams os params)
  = createContextInitParams os params.
Proof.
  apply map_eq. intros k.
  destruct (decide (k ∈ factory_fields)) as [Hin | Hout].
  - remember (createContextInitParams os params) as q eqn:Hq.
    unfold factory_fields in Hin.
    repeat (apply elem_of_cons in Hin as [-> | Hin]);
      try (apply elem_of_nil in Hin; destruct Hin);
      factory_lookup; subst q;
      rewrite ?(get_of_lookup (createContextInitParams os params));
      unfold createContextInitParams; rewrite !with_properties_lookup;
      cbn [last_written fst snd String.eqb Ascii.eqb Bool.eqb default
             from_option id];
      rewrite ?coalesce_idem; try reflexivity.
    destruct (Obj.get params "use_mmap") as [| |[]| | | |];
      destruct os; reflexivity.
  - rewrite !createContextInitParams_frame by exact Hout. reflexivity.
Qed.

(** ** Migrator, beyond the claims *)

Lemma keeps_off_refl (K : list string) (p : gmap string JsVal) :
  keeps_off K p p.
Proof. intros k _ H. exact H. Qed.

Lemma keeps_off_trans (K : list string) (p q r : gmap string JsVal) :
  keeps_off K p q -> keeps_off K q r -> keeps_off K p r.
Proof. intros Hpq Hqr k Hk H. apply Hpq, Hqr; assumption. Qed.

Lemma keeps_off_insert (K : list string) (k : string) (v : JsVal)
    (p q : gmap string JsVal) :
  keeps_off K p q -> keeps_off K (<[k := v]> p) q.
Proof.
  intros H j Hj Hq. apply lookup_insert_is_Some.
  destruct (decide (k = j)); [left; assumption | right].
  split; [assumption | apply H; assumption].
Qed.

Lemma keeps_off_delete (K : list string) (k : string)
    (p q : gmap string JsVal) :
  k ∈ K -> keeps_off K p q -> keeps_off K (delete k p) q.
Proof.
  intros Hk H j Hj Hq. rewrite lookup_delete_ne; [apply H; assumption|].
  intros ->. contradiction.
Qed.

Lemma keeps_off_if (K : list string) (c : bool) (p1 p2 q : gmap string JsVal) :
  keeps_off K p1 q -> keeps_off K p2 q -> keeps_off K (if c then p1 else p2) q.
Proof. destruct c; trivial. Qed.

(** Walks down a chain of conditional assignments; only the deletion of a
    name of the list is let through. *)
Ltac keeps :=
  repeat first
    [ apply keeps_off_refl
    | apply keeps_off_if
    | apply keeps_off_insert
    | apply keeps_off_delete; [solve [in_list]|] ].

Lemma migrate_legacy_to_1_0_keeps (os : PlatformOS) (p : gmap string JsVal) :
  keeps_off ["n_context"] (migrate_legacy_to_1_0 os p) p.
Proof. unfold migrate_legacy_to_1_0. cbv zeta. keeps. Qed.

Lemma migrate_1_0_to_2_0_keeps (os : PlatformOS) (p : gmap string JsVal) :
  keeps_off ["n_context"] (migrate_1_0_to_2_0 os p) p.
Proof. unfold migrate_1_0_to_2_0. cbv zeta. keeps. Qed.

(** The migrator removes no field but [n_context]. *)
Lemma migrate_keeps (os : PlatformOS) (x : JsVal) :
  exists p, migrateContextInitParams os x = Ok p /\
            keeps_off ["n_context"] p (Obj.own_enumerable x).
Proof.
  unfold migrateContextInitParams. eexists. split; [reflexivity|].
  cbv zeta. set (q := Obj.own_enumerable x).
  apply keeps_off_insert. apply keeps_off_if.
  - eapply keeps_off_trans; [apply migrate_1_0_to_2_0_keeps|].
    apply keeps_off_if.
    + eapply keeps_off_trans; [apply migrate_legacy_to_1_0_keeps|]. keeps.
    + keeps.
  - apply keeps_off_if.
    + eapply keeps_off_trans; [apply migrate_legacy_to_1_0_keeps|]. keeps.
    + keeps.
Qed.

Lemma validate_object_true (m : gmap string JsVal) :
  validateContextInitParams (JObj m) = Ok true
  <-> Forall (fun k => is_Some (m !! k)) requiredFields.
Proof.
  unfold validateContextInitParams. rewrite every_in_object, Forall_forall.
  split.
  - intros H k Hk. apply Ok_inj in H. rewrite forallb_forall in H.
    apply has_is_Some, H, list_elem_of_In, Hk.
  - intros H. f_equal. apply forallb_forall. intros k Hk.
    apply has_is_Some, H, list_elem_of_In, Hk.
Qed.

(** X12. Migration preserves validity: a value that the validator accepts
    is still accepted after it has been migrated, on every platform and from
    every version. *)
Theorem migrate_preserves_validity (os : PlatformOS) (x : JsVal) :
  validateContextInitParams x = Ok true ->
  (migrateContextInitParams os x ≫= λ p, validateContextInitParams (JObj p))
  = Ok true.
Proof.
  intros Hv. pose proof (validateContextInitParams_non_object x) as Hn.
  destruct x as [| | b | y | s | l | m].
  1-5: destruct Hn as [e He]; rewrite He in Hv; discriminate Hv.
  1: rewrite Hn in Hv; discriminate Hv.
  destruct (migrate_keeps os (JObj m)) as (p & -> & Hkeep). cbn.
  apply validate_object_true. apply validate_object_true in Hv.
  cbn [Obj.own_enumerable] in Hkeep.
  rewrite Forall_forall in *. intros k Hk. apply Hkeep; [|apply Hv, Hk].
  unfold requiredFields in Hk. intros Hc. apply list_elem_of_singleton in Hc.
  subst k. repeat (apply elem_of_cons in Hk as [Hk | Hk]; [discriminate Hk|]).
  apply elem_of_nil in Hk. exact Hk.
Qed.

Lemma migrate_preserves_validity_witness :
  (migrateContextInitParams ios (JObj (createDefaultContextInitParams android))
     ≫= λ p, validateContextInitParams (JObj p))
  = Ok true.
Proof.
  apply (migrate_preserves_validity ios
           (JObj (createDefaultContextInitParams android))).
  vm_compute. reflexivity.
Defined.

(** X13. A blob whose version is neither missing, falsy, ['0.0'] nor
    ['1.0'] goes through no migration step: it comes back with every field
    as it was and its version replaced by the current one. This holds of the
    current version and of any version the migrator does not know. *)
Theorem migrate_other_version_untouched
    (os : PlatformOS) (m : gmap string JsVal) :
  truthy (Obj.get m "version") = true ->
  is_str (Obj.get m "version") "0.0" = false ->
  is_str (Obj.get m "version") "1.0" = false ->
  migrateContextInitParams os (JObj m)
  = Ok (<["version" := JStr "2.0"]> m).
Proof.
  intros Ht H0 H1. unfold migrateContextInitParams.
  cbn [Obj.own_enumerable]. cbv zeta.
  assert (Hu : is_undefined (Obj.get m "version") = false)
    by (destruct (Obj.get m "version"); try reflexivity; discriminate Ht).
  rewrite Hu. rewrite H0, Ht. cbn [negb orb]. rewrite H1. reflexivity.
Qed.

Lemma migrate_other_version_untouched_witness :
  migrateContextInitParams android
    (JObj {[ "version" := JStr "3.0"; "n_ctx" := JNum 1024%float ]})
  = Ok (<["version" := JStr "2.0"]>
          {[ "version" := JStr "3.0"; "n_ctx" := JNum 1024%float ]}).
Proof.
  apply (migrate_other_version_untouched android
           {[ "version" := JStr "3.0"; "n_ctx" := JNum 1024%float ]});
    vm_compute; reflexivity.
Defined.

(** Walks down a chain of conditional assignments to the names of the list
    and stops at the first node that writes another name. *)
Ltac reach :=
  first
    [ apply same_off_insert; [solve [in_list] | reach]
    | apply same_off_delete; [solve [in_list] | reach]
    | apply same_off_if; [reach | reach]
    | apply same_off_refl ].

(** A literal name is outside a written-out list. *)
Ltac not_in_list :=
  rewrite ?not_elem_of_cons; repeat split; try discriminate;
  apply not_elem_of_nil.

Lemma migrate_legacy_to_1_0_version (os : PlatformOS) (p : gmap string JsVal) :
  Obj.get (migrate_legacy_to_1_0 os p) "version" = JStr "1.0".
Proof. unfold migrate_legacy_to_1_0. cbv zeta. apply get_insert_eq. Qed.

(** A legacy blob goes through both steps. *)
Lemma migrate_legacy_shape (os : PlatformOS) (m : gmap string JsVal) :
  is_legacy m = true ->
  exists m0 : gmap string JsVal,
    same_off ["version"] m0 m /\
    migrateContextInitParams os (JObj m)
    = Ok (<["version" := JStr "2.0"]>
            (migrate_1_0_to_2_0 os (migrate_legacy_to_1_0 os m0))).
Proof.
  intros Hl.
  exists (if is_undefined (Obj.get m "version")
          then <["version" := JStr "0.0"]> m else m).
  split.
  - apply same_off_if; [apply same_off_insert; [in_list|]|];
      apply same_off_refl.
  - unfold migrateContextInitParams. cbn [Obj.own_enumerable]. cbv zeta.
    set (m0 := if is_undefined (Obj.get m "version") then _ else m).
    assert (H0 : is_str (Obj.get m0 "version") "0.0"
                 || negb (truthy (Obj.get m0 "version")) = true).
    { subst m0. destruct (is_undefined (Obj.get m "version")).
      - rewrite get_insert_eq. reflexivity.
      - exact Hl. }
    rewrite H0, migrate_legacy_to_1_0_version. reflexivity.
Qed.

Lemma get_same (p q : gmap string JsVal) (k : string) :
  p !! k = q !! k -> Obj.get p k = Obj.get q k.
Proof. unfold Obj.get. intros ->. reflexivity. Qed.

Lemma has_same (p q : gmap string JsVal) (k : string) :
  p !! k = q !! k -> Obj.has k p = Obj.has k q.
Proof. unfold Obj.has. intros ->. reflexivity. Qed.

Lemma lookup_if (c : bool) (p q : gmap string JsVal) (k : string) :
  (if c then p else q) !! k = if c then p !! k else q !! k.
Proof. destruct c; reflexivity. Qed.

(** The first step, seen from the two names of the context size: only the
    rename touches them. *)
Lemma migrate_legacy_to_1_0_rename (os : PlatformOS) (p : gmap string JsVal) :
  same_off ["version"; "use_mlock"; "use_mmap"; "no_gpu_devices"]
    (migrate_legacy_to_1_0 os p)
    (if Obj.has "n_context" p && negb (Obj.has "n_ctx" p)
     then delete "n_context" (<["n_ctx" := Obj.get p "n_context"]> p)
     else p).
Proof. unfold migrate_legacy_to_1_0. cbv zeta. reach. Qed.

(** The second step, seen from the two names of the context size: only the
    raise of the old default touches them. *)
Lemma migrate_1_0_to_2_0_n_ctx (os : PlatformOS) (q : gmap string JsVal) :
  forall u, q !! "n_ctx" = Some u ->
    migrate_1_0_to_2_0 os q !! "n_ctx" = Some (bump_n_ctx u) /\
    migrate_1_0_to_2_0 os q !! "n_context" = q !! "n_context".
Proof.
  intros u Hu. remember q as Q eqn:HQ in |- *.
  eassert (H1 : same_off
                  [ "version"; "no_gpu_devices"; "n_gpu_layers"; "devices";
                    "flash_attn_type"; "kv_unified"; "n_parallel" ]
                  (migrate_1_0_to_2_0 os Q) _)
    by (unfold migrate_1_0_to_2_0; cbv zeta; reach).
  match type of H1 with
  | same_off _ _ (if is_num (Obj.get ?P _) _ then _ else _) =>
      set (P4 := P) in *;
      assert (H2 : same_off
                     [ "version"; "no_gpu_devices"; "n_gpu_layers"; "devices";
                       "flash_attn_type"; "kv_unified"; "n_parallel" ] P4 Q)
        by (subst P4; reach)
  end.
  clearbody P4.
  rewrite (H1 "n_ctx") by not_in_list. rewrite (H1 "n_context") by not_in_list.
  pose proof (H2 "n_ctx" ltac:(not_in_list)) as H2c.
  pose proof (H2 "n_context" ltac:(not_in_list)) as H2x.
  subst Q. rewrite Hu in H2c. rewrite <- H2x. clear H1 H2 H2x.
  unfold Obj.get, bump_n_ctx. rewrite H2c. cbn [default from_option id].
  destruct (is_num u 1024).
  - split; [apply lookup_insert_eq | apply lookup_insert_ne; discriminate].
  - split; [exact H2c | reflexivity].
Qed.

(** X14. The rename of [n_context]. From a legacy blob that has [n_context]
    and no [n_ctx], the migrator makes [n_ctx] with that value and removes
    [n_context]; from one that has [n_ctx] it keeps [n_ctx] and leaves
    [n_context] as it is. In both cases the old default 1024 becomes 2048
    and any other value stays. *)
Theorem migrate_legacy_n_context (os : PlatformOS) (m : gmap string JsVal) :
  is_legacy m = true ->
  exists p, migrateContextInitParams os (JObj m) = Ok p /\
    (forall v, m !! "n_context" = Some v -> m !! "n_ctx" = None ->
       p !! "n_ctx" = Some (bump_n_ctx v) /\ p !! "n_context" = None) /\
    (forall w, m !! "n_ctx" = Some w ->
       p !! "n_ctx" = Some (bump_n_ctx w) /\
       p !! "n_context" = m !! "n_context").
Proof.
  intros Hl. destruct (migrate_legacy_shape os m Hl) as (m0 & Hm0 & ->).
  eexists. split; [reflexivity|].
  assert (Hc0 : m0 !! "n_context" = m !! "n_context")
    by (apply Hm0; not_in_list).
  assert (Hn0 : m0 !! "n_ctx" = m !! "n_ctx") by (apply Hm0; not_in_list).
  clear Hm0 Hl.
  pose proof (migrate_legacy_to_1_0_rename os m0) as HR.
  pose proof (HR "n_ctx" ltac:(not_in_list)) as HRc.
  pose proof (HR "n_context" ltac:(not_in_list)) as HRx.
  clear HR. unfold Obj.has, Obj.get in HRc, HRx.
  rewrite Hc0, Hn0 in HRc, HRx.
  rewrite !(lookup_insert_ne _ "version") by discriminate.
  split.
  - intros v Hv Hn. rewrite Hv, Hn in HRc, HRx. cbn in HRc, HRx.
    rewrite lookup_delete_ne, lookup_insert_eq in HRc by discriminate.
    rewrite lookup_delete_eq in HRx.
    destruct (migrate_1_0_to_2_0_n_ctx os _ v HRc) as [H1 H2].
    split; [exact H1 | rewrite H2; exact HRx].
  - intros w Hw. rewrite Hw in HRc, HRx.
    replace (match m !! "n_context" with Some _ => true | None => false end
             && negb true) with false in HRc, HRx
      by (destruct (m !! "n_context"); reflexivity).
    rewrite Hn0, Hw in HRc. rewrite Hc0 in HRx.
    destruct (migrate_1_0_to_2_0_n_ctx os _ w HRc) as [H1 H2].
    split; [exact H1 | rewrite H2; exact HRx].
Qed.

Lemma migrate_legacy_n_context_witness :
  exists p,
    migrateContextInitParams android
      (JObj {[ "n_context" := JNum 1024%float ]}) = Ok p /\
    p !! "n_ctx" = Some (JNum 2048%float) /\ p !! "n_context" = None.
Proof.
  assert (Hl : is_legacy
                 ({[ "n_context" := JNum 1024%float ]} : gmap string JsVal)
               = true) by (vm_compute; reflexivity).
  destruct (migrate_legacy_n_context android _ Hl) as (p & Hp & Hrename & _).
  exists p. split; [exact Hp|].
  apply (Hrename (JNum 1024%float)); vm_compute; reflexivity.
Defined.

(** The first step leaves alone every name but those it writes. *)
Lemma migrate_legacy_to_1_0_untouched (os : PlatformOS) (p : gmap string JsVal) :
  same_off [ "version"; "n_ctx"; "n_context"; "use_mlock"; "use_mmap";
             "no_gpu_devices" ]
    (migrate_legacy_to_1_0 os p) p.
Proof. unfold migrate_legacy_to_1_0. cbv zeta. reach. Qed.

(** After the first step [no_gpu_devices] is there: [false] when the blob
    did not define it, the blob's value otherwise. *)
Lemma migrate_legacy_to_1_0_no_gpu_devices
    (os : PlatformOS) (p : gmap string JsVal) :
  migrate_legacy_to_1_0 os p !! "no_gpu_devices"
  = Some (if is_undefined (Obj.get p "no_gpu_devices") then JBool false
          else Obj.get p "no_gpu_devices").
Proof.
  eassert (H1 : same_off ["version"] (migrate_legacy_to_1_0 os p) _)
    by (unfold migrate_legacy_to_1_0; cbv zeta; reach).
  match type of H1 with
  | same_off _ _ (if is_undefined (Obj.get ?P _) then _ else _) =>
      set (P3 := P) in *;
      assert (H2 : same_off ["n_ctx"; "n_context"; "use_mlock"; "use_mmap"]
                     P3 p)
        by (subst P3; reach)
  end.
  clearbody P3. rewrite (H1 "no_gpu_devices") by not_in_list.
  pose proof (H2 "no_gpu_devices" ltac:(not_in_list)) as H2g. clear H1 H2.
  rewrite (get_same _ _ _ H2g).
  destruct (is_undefined (Obj.get p "no_gpu_devices")) eqn:Hu.
  - apply lookup_insert_eq.
  - rewrite H2g. unfold Obj.get in *.
    destruct (p !! "no_gpu_devices"); [reflexivity | discriminate Hu].
Qed.

(** The device model of the second step. *)
Lemma migrate_1_0_to_2_0_devices (os : PlatformOS) (q : gmap string JsVal) :
  Obj.has "no_gpu_devices" q = true ->
  migrate_1_0_to_2_0 os q !! "devices" = Some JUndefined /\
  migrate_1_0_to_2_0 os q !! "n_gpu_layers"
  = Some (if is_true (Obj.get q "no_gpu_devices") then JNum 0%float
          else if is_undefined (Obj.get q "n_gpu_layers")
                  || is_num (Obj.get q "n_gpu_layers") 0%float
               then JNum 99%float
               else Obj.get q "n_gpu_layers").
Proof.
  intros Hhas.
  eassert (H1 : same_off
                  [ "version"; "flash_attn_type"; "kv_unified"; "n_parallel";
                    "n_ctx" ]
                  (migrate_1_0_to_2_0 os q) _)
    by (unfold migrate_1_0_to_2_0; cbv zeta; reach).
  rewrite (H1 "devices") by not_in_list.
  rewrite (H1 "n_gpu_layers") by not_in_list. clear H1.
  rewrite Hhas. destruct (is_true (Obj.get q "no_gpu_devices")).
  - split; [apply lookup_insert_eq|].
    rewrite lookup_insert_ne by discriminate. apply lookup_insert_eq.
  - rewrite !get_insert_ne by discriminate.
    destruct (is_undefined (Obj.get q "n_gpu_layers")
              || is_num (Obj.get q "n_gpu_layers") 0) eqn:Hc.
    + split; [|apply lookup_insert_eq].
      rewrite lookup_insert_ne by discriminate. apply lookup_insert_eq.
    + split; [apply lookup_insert_eq|].
      rewrite lookup_insert_ne by discriminate.
      apply orb_false_iff in Hc as [Hu _]. unfold Obj.get in *.
      destruct (q !! "n_gpu_layers"); [reflexivity | discriminate Hu].
Qed.

(** X15. Migrating a legacy blob resets the device selection: [devices]
    comes out [undefined], whatever the blob held there, and [n_gpu_layers]
    is 0 when [no_gpu_devices] was [true], else 99 when it was unset or 0,
    else the blob's own value. *)
Theorem migrate_legacy_devices (os : PlatformOS) (m : gmap string JsVal) :
  is_legacy m = true ->
  exists p, migrateContextInitParams os (JObj m) = Ok p /\
    p !! "devices" = Some JUndefined /\
    p !! "n_gpu_layers"
    = Some (if is_true (Obj.get m "no_gpu_devices") then JNum 0%float
            else if is_undefined (Obj.get m "n_gpu_layers")
                    || is_num (Obj.get m "n_gpu_layers") 0%float
                 then JNum 99%float
                 else Obj.get m "n_gpu_layers").
Proof.
  intros Hl. destruct (migrate_legacy_shape os m Hl) as (m0 & Hm0 & ->).
  eexists. split; [reflexivity|].
  rewrite !(lookup_insert_ne _ "version") by discriminate.
  pose proof (migrate_legacy_to_1_0_no_gpu_devices os m0) as Hg.
  pose proof (migrate_legacy_to_1_0_untouched os m0 "n_gpu_layers"
                ltac:(not_in_list)) as Hn.
  rewrite (get_same _ _ _ (Hm0 "no_gpu_devices" ltac:(not_in_list))) in Hg.
  rewrite (Hm0 "n_gpu_layers" ltac:(not_in_list)) in Hn.
  set (q := migrate_legacy_to_1_0 os m0) in *. clearbody q.
  assert (Hhas : Obj.has "no_gpu_devices" q = true)
    by (unfold Obj.has; rewrite Hg; reflexivity).
  destruct (migrate_1_0_to_2_0_devices os q Hhas) as [Hd Hl2].
  split; [exact Hd|]. rewrite Hl2.
  rewrite (get_same _ _ _ Hn). unfold Obj.get at 1. rewrite Hg.
  cbn [default from_option id].
  destruct (Obj.get m "no_gpu_devices") as [| |[]| | | |]; reflexivity.
Qed.

Lemma migrate_legacy_devices_witness :
  exists p,
    migrateContextInitParams ios
      (JObj {[ "devices" := JArr [JStr "CPU"];
               "n_gpu_layers" := JNum 20%float ]}) = Ok p /\
    p !! "devices" = Some JUndefined /\
    p !! "n_gpu_layers" = Some (JNum 20%float).
Proof.
  assert (Hl : is_legacy
                 ({[ "devices" := JArr [JStr "CPU"];
                     "n_gpu_layers" := JNum 20%float ]} : gmap string JsVal)
               = true) by (vm_compute; reflexivity).
  destruct (migrate_legacy_devices ios _ Hl) as (p & Hp & Hd & Hn).
  exists p. split; [exact Hp|]. split; [exact Hd|].
  rewrite Hn. vm_compute. reflexivity.
Defined.

(** A blob tagged ['1.0'] goes through the second step only. *)
Lemma migrate_v1_shape (os : PlatformOS) (m : gmap string JsVal) :
  is_str (Obj.get m "version") "1.0" = true ->
  migrateContextInitParams os (JObj m)
  = Ok (<["version" := JStr "2.0"]> (migrate_1_0_to_2_0 os m)).
Proof.
  intros Hv. unfold migrateContextInitParams.
  cbn [Obj.own_enumerable]. cbv zeta.
  destruct (Obj.get m "version") as [| | | |v| |] eqn:Hg; try discriminate Hv.
  cbn [is_undefined]. rewrite Hg.
  unfold is_str, Js.str_eq in *. apply String.eqb_eq in Hv. subst v.
  cbn. rewrite Hg. cbn. reflexivity.
Qed.

(** The flash-attention setting of the second step. *)
Lemma migrate_1_0_to_2_0_flash_attn (os : PlatformOS) (q : gmap string JsVal) :
  migrate_1_0_to_2_0 os q !! "flash_attn_type"
  = if Obj.has "flash_attn" q && typeof_boolean (Obj.get q "flash_attn")
    then Some (JStr (if truthy (Obj.get q "flash_attn")
                     then default_flash_attn os else "off"))
    else if negb (truthy (Obj.get q "flash_attn_type"))
         then Some (JStr (default_flash_attn os))
         else q !! "flash_attn_type".
Proof.
  eassert (H1 : same_off ["version"; "kv_unified"; "n_parallel"; "n_ctx"]
                  (migrate_1_0_to_2_0 os q) _)
    by (unfold migrate_1_0_to_2_0; cbv zeta; reach).
  match type of H1 with
  | same_off _ _ (if Obj.has "flash_attn" ?P && _ then _ else _) =>
      set (P1 := P) in *;
      assert (H2 : same_off ["no_gpu_devices"; "n_gpu_layers"; "devices"]
                     P1 q)
        by (subst P1; reach)
  end.
  clearbody P1. rewrite (H1 "flash_attn_type") by not_in_list. clear H1.
  pose proof (H2 "flash_attn" ltac:(not_in_list)) as Hf.
  pose proof (H2 "flash_attn_type" ltac:(not_in_list)) as Ht. clear H2.
  rewrite (has_same _ _ _ Hf), (get_same _ _ _ Hf), (get_same _ _ _ Ht).
  destruct (Obj.has "flash_attn" q && typeof_boolean (Obj.get q "flash_attn")).
  - destruct (truthy (Obj.get q "flash_attn")); apply lookup_insert_eq.
  - destruct (negb (truthy (Obj.get q "flash_attn_type")));
      [apply lookup_insert_eq | exact Ht].
Qed.

(** X16. The flash-attention setting of a migrated old blob (legacy or
    ['1.0']). A boolean [flash_attn] decides alone, whatever
    [flash_attn_type] says: [true] gives ['auto'] on iOS and ['off']
    elsewhere, [false] gives ['off']. Without a boolean [flash_attn], a
    truthy [flash_attn_type] is kept and a missing or falsy one becomes the
    platform default. *)
Theorem migrate_old_flash_attn (os : PlatformOS) (m : gmap string JsVal) :
  is_legacy m = true \/ is_str (Obj.get m "version") "1.0" = true ->
  exists p, migrateContextInitParams os (JObj m) = Ok p /\
    (forall b : bool,
       m !! "flash_attn" = Some (JBool b) ->
       p !! "flash_attn_type"
       = Some (JStr (if b && is_ios os then "auto" else "off"))) /\
    (typeof_boolean (Obj.get m "flash_attn") = false ->
     (truthy (Obj.get m "flash_attn_type") = true ->
      p !! "flash_attn_type" = m !! "flash_attn_type") /\
     (truthy (Obj.get m "flash_attn_type") = false ->
      p !! "flash_attn_type"
      = Some (JStr (if is_ios os then "auto" else "off")))).
Proof.
  intros Hold.
  assert (Hshape : exists q : gmap string JsVal,
            q !! "flash_attn" = m !! "flash_attn" /\
            q !! "flash_attn_type" = m !! "flash_attn_type" /\
            migrateContextInitParams os (JObj m)
            = Ok (<["version" := JStr "2.0"]> (migrate_1_0_to_2_0 os q))).
  { destruct Hold as [Hl | Hv].
    - destruct (migrate_legacy_shape os m Hl) as (m0 & Hm0 & Hp).
      exists (migrate_legacy_to_1_0 os m0). split; [|split; [|exact Hp]].
      + rewrite (migrate_legacy_to_1_0_untouched os m0 "flash_attn")
          by not_in_list.
        apply Hm0. not_in_list.
      + rewrite (migrate_legacy_to_1_0_untouched os m0 "flash_attn_type")
          by not_in_list.
        apply Hm0. not_in_list.
    - exists m. split; [reflexivity|]. split; [reflexivity|].
      apply migrate_v1_shape, Hv. }
  destruct Hshape as (q & Hf & Ht & ->). eexists. split; [reflexivity|].
  rewrite !(lookup_insert_ne _ "version") by discriminate.
  rewrite migrate_1_0_to_2_0_flash_attn.
  rewrite (has_same _ _ _ Hf), (get_same _ _ _ Hf), (get_same _ _ _ Ht), Ht.
  unfold default_flash_attn. split.
  - intros b Hb. unfold Obj.has, Obj.get. rewrite Hb. cbn.
    destruct b, (is_ios os); reflexivity.
  - intros Hnb. rewrite Hnb, andb_false_r. split; intros Htr; rewrite Htr;
      reflexivity.
Qed.

Lemma migrate_old_flash_attn_witness :
  exists p,
    migrateContextInitParams android
      (JObj {[ "flash_attn" := JBool true;
               "flash_attn_type" := JStr "on" ]}) = Ok p /\
    p !! "flash_attn_type" = Some (JStr "off").
Proof.
  assert (Hl : is_legacy
                 ({[ "flash_attn" := JBool true;
                     "flash_attn_type" := JStr "on" ]} : gmap string JsVal)
               = true) by (vm_compute; reflexivity).
  destruct (migrate_old_flash_attn android _ (or_introl Hl))
    as (p & Hp & Hbool & _).
  exists p. split; [exact Hp|].
  apply (Hbool true). vm_compute. reflexivity.
Defined.

(** ** Model quantization *)





(** What [find] returns is the first element that passes the test. *)
Lemma find_first {A : Type} (f : A -> bool) (l : list A) (x : A) :
  List.find f l = Some x
  <-> exists l1 l2, l = (l1 ++ x :: l2)%list /\ f x = true
                    /\ Forall (fun y => f y = false) l1.
Proof.
  induction l as [|y l IH].
  - split; [discriminate|]. intros (l1 & l2 & H & _). destruct l1; discriminate H.
  - cbn [List.find]. destruct (f y) eqn:Hy.
    + split.
      * intros [= ->]. exists [], l. repeat split; [exact Hy | constructor].
      * intros (l1 & l2 & H & Hx & Hl1). destruct l1 as [|z l1].
        -- injection H as -> _. reflexivity.
        -- injection H as -> _. apply Forall_cons_1 in Hl1 as [Hz _].
           rewrite Hz in Hy. discriminate Hy.
    + rewrite IH. split.
      * intros (l1 & l2 & -> & Hx & Hl1). exists (y :: l1), l2.
        repeat split; [exact Hx | constructor; assumption].
      * intros (l1 & l2 & H & Hx & Hl1). destruct l1 as [|z l1].
        -- injection H as -> _. rewrite Hx in Hy. discriminate Hy.
        -- injection H as -> ->. apply Forall_cons_1 in Hl1 as [_ Hl1].
           exists l1, l2. repeat split; assumption.
Qed.


Example detectQuantizationType_examples :
  detectQuantizationType "Llama-3.2-1B-Instruct-Q4_K_M.gguf" = Some "q4_k_m" /\
  detectQuantizationType "model-IQ4_NL.gguf" = Some "iq4_nl" /\
  detectQuantizationType "q4_0-then-Q8_0.gguf" = Some "q8_0" /\
  detectQuantizationType "model.gguf" = None.
Proof. repeat split; vm_compute; reflexivity. Qed.






Example validateModelQuantizationForDevice_q8_on_gpu :
  let r := validateModelQuantizationForDevice android "Qwen-Q8_0.gguf"
             (DeviceOption.mk id_gpu "GPU (OpenCL)"
                "OpenCL GPU acceleration (Only for Q4_0/Q6_K models)"
                (Some ["Adreno (TM) 740"]) 99%float fa_off [fa_off]
                (Some Fastest) None platform_android None) in
  valid r = false /\
  exists w, warning r = Some w /\ Js.includes w "This model (Q8_0)" = true.
Proof. split; [vm_compute; reflexivity|]. eexists. split; vm_compute; reflexivity. Qed.

(** ** Device catalog, beyond the claims *)





(** The options of the catalog outside iOS, one by one. *)
Lemma getDeviceOptions_android_elem
    (os : PlatformOS) (probe : ProbeOutcome) (o : DeviceOption.t) :
  os <> ios ->
  o ∈ getDeviceOptions os probe ->
  (DeviceOption.id o = id_cpu /\ DeviceOption.devices o = Some ["CPU"] /\
   DeviceOption.n_gpu_layers o = 0%float) \/
  (DeviceOption.id o = id_gpu /\
   exists d, List.find (fun d => Js.str_eq (type d) "gpu")
               (getAvailableDevices probe) = Some d /\
             DeviceOption.devices o = Some [deviceName d] /\
             DeviceOption.deviceInfo o = Some d /\
             DeviceOption.n_gpu_layers o = 99%float) \/
  (DeviceOption.id o = id_hexagon /\
   DeviceOption.devices o = Some ["HTP*"] /\
   DeviceOption.deviceInfo o
   = head (List.filter (fun d => Js.startsWith (deviceName d) "HTP")
             (getAvailableDevices probe)) /\
   is_Some (DeviceOption.deviceInfo o) /\
   DeviceOption.n_gpu_layers o = 99%float).
Proof.
  intros Hos. unfold getDeviceOptions.
  replace (is_ios os) with false by (destruct os; cbn; congruence).
  cbv zeta. rewrite !elem_of_app. intros [Hc | [Hg | Hh]].
  - apply list_elem_of_singleton in Hc. subst o. left. repeat split.
  - right. left.
    destruct (List.find _ _) as [d|] eqn:Hf;
      [|apply elem_of_nil in Hg; destruct Hg].
    apply list_elem_of_singleton in Hg. subst o.
    split; [reflexivity|]. exists d. repeat split.
  - right. right.
    destruct (List.filter _ _) as [|d ds] eqn:Hf;
      [apply elem_of_nil in Hh; destruct Hh|].
    cbn in Hh. apply list_elem_of_singleton in Hh. subst o.
    repeat split. cbn. eexists. reflexivity.
Qed.





(** X22. The default device configuration is the recommended option of the
    catalog: on every platform and for every answer of the probe, the first
    option of [getDeviceOptions] has the identifier
    [getRecommendedDeviceId] names, and its devices, GPU layers and default
    flash-attention mode are those of [getDefaultDeviceConfig]. *)
Theorem getDefaultDeviceConfig_is_recommended_option
    (os : PlatformOS) (probe : ProbeOutcome) :
  exists o rest,
    getDeviceOptions os probe = o :: rest /\
    DeviceOption.id o = getRecommendedDeviceId os /\
    DeviceOption.devices o = config_devices (getDefaultDeviceConfig os) /\
    DeviceOption.n_gpu_layers o
      = config_n_gpu_layers (getDefaultDeviceConfig os) /\
    DeviceOption.default_flash_attn_type o
      = config_default_flash_attn_type (getDefaultDeviceConfig os) /\
    DeviceOption.tag o = Some Recommended.
Proof.
  unfold getDeviceOptions, getRecommendedDeviceId, getDefaultDeviceConfig.
  destruct (is_ios os); cbv zeta; eexists; eexists;
    (split; [reflexivity|]); repeat split.
Qed.

(** X23. On a platform other than iOS the three ways of asking for a GPU
    agree: [isGpuAvailable] is true exactly when the catalog shows a [gpu]
    option, and on Android exactly when auto-selection resolves to [opencl];
    likewise [isHexagonAvailable] is true exactly when the catalog shows a
    [hexagon] option. *)
Theorem availability_agrees_with_catalog
    (os : PlatformOS) (probe : ProbeOutcome) :
  os <> ios ->
  (isGpuAvailable probe = true
   <-> id_gpu ∈ map DeviceOption.id (getDeviceOptions os probe)) /\
  (isHexagonAvailable probe = true
   <-> id_hexagon ∈ map DeviceOption.id (getDeviceOptions os probe)) /\
  (isGpuAvailable probe = true
   <-> inferBackendType android None probe = opencl) /\
  (isGpuAvailable probe = false
   <-> inferBackendType android None probe = cpu).
Proof.
  intros Hos. rewrite (getDeviceOptions_android_ids os probe Hos).
  unfold isGpuAvailable, isHexagonAvailable, inferBackendType. cbv zeta.
  cbn [is_ios].
  destruct (existsb (fun d => Js.str_eq (type d) "gpu") _);
    destruct (existsb (fun d => Js.startsWith (deviceName d) "HTP") _);
    cbn; rewrite ?elem_of_cons, ?elem_of_nil;
    repeat split; intros H; try reflexivity; try discriminate H; auto;
    intuition discriminate.
Qed.

Lemma availability_agrees_with_catalog_witness :
  isGpuAvailable (Ok (Some [mkDeviceInfo "Adreno (TM) 740" "gpu"])) = true
  <-> id_gpu ∈ map DeviceOption.id
        (getDeviceOptions android
           (Ok (Some [mkDeviceInfo "Adreno (TM) 740" "gpu"]))).
Proof.
  apply (proj1 (availability_agrees_with_catalog android
                  (Ok (Some [mkDeviceInfo "Adreno (TM) 740" "gpu"]))
                  ltac:(discriminate))).
Defined.

(** X24. The catalog and the backend resolver agree. Given the devices of a
    catalog option, [inferBackendType] answers [cpu] for the [cpu] option and
    [hexagon] for the [hexagon] option; on iOS it answers [metal] for [auto]
    and [gpu]; on Android it answers [opencl] for the [gpu] option, unless
    the name of the GPU device is [metal] or [cpu] in some letter case or
    starts with [HTP]. The answer of the probe at resolution time plays no
    part. *)
Theorem inferBackendType_of_catalog_option
    (os : PlatformOS) (probe probe' : ProbeOutcome) (o : DeviceOption.t) :
  o ∈ getDeviceOptions os probe ->
  let backend := inferBackendType os (DeviceOption.devices o) probe' in
  (DeviceOption.id o = id_cpu -> backend = cpu) /\
  (DeviceOption.id o = id_hexagon -> backend = hexagon) /\
  (os = ios -> DeviceOption.id o <> id_cpu -> backend = metal) /\
  (os = android -> DeviceOption.id o = id_gpu ->
   exists name, DeviceOption.devices o = Some [name] /\
     (equal_ignoring_case name "metal" = false ->
      equal_ignoring_case name "cpu" = false ->
      Js.startsWith name "HTP" = false ->
      backend = opencl)).
Proof.
  intros Hin backend. subst backend.
  destruct (decide (os = ios)) as [-> | Hos].
  - cbn in Hin.
    repeat (apply elem_of_cons in Hin as [-> | Hin]);
      try (apply elem_of_nil in Hin; destruct Hin);
      cbn; repeat split; intros; try reflexivity; try discriminate;
      contradiction.
  - destruct (getDeviceOptions_android_elem os probe o Hos Hin)
      as [(Hid & Hd & _) | [(Hid & d & _ & Hd & _) | (Hid & Hd & _)]];
      rewrite Hid, Hd; refine (conj _ (conj _ (conj _ _)));
      try discriminate; try (intros; contradiction);
      try (intros; reflexivity).
    intros -> _. exists (deviceName d). split; [reflexivity|].
    rewrite !equal_ignoring_case_lower.
    change (Js.toLowerCase "metal") with "metal".
    change (Js.toLowerCase "cpu") with "cpu".
    unfold inferBackendType. intros -> -> ->. reflexivity.
Qed.

Lemma inferBackendType_of_catalog_option_witness :
  inferBackendType android (Some ["HTP*"]) (Ok None) = hexagon.
Proof.
  apply (proj1 (proj2 (inferBackendType_of_catalog_option android
           (Ok (Some [mkDeviceInfo "HTP0" "npu"])) (Ok None)
           (DeviceOption.mk id_hexagon "Hexagon"
              "Qualcomm NPU (Experimental, fastest but may be unstable)"
              (Some ["HTP*"]) 99%float fa_off [fa_off]
              (Some Experimental) (Some true) platform_android
              (Some (mkDeviceInfo "HTP0" "npu")))
           ltac:(cbn; in_list)))).
  reflexivity.
Defined.

(** ** Settings screen *)

(** X25. Round trip of the device selection: once the devices of a catalog
    option are in the configuration, [getCurrentDeviceId] gives back the
    identifier of that option. Two cases need a condition: on iOS the [auto]
    option reads back as [auto] only when [n_gpu_layers] is not 0, and
    outside iOS the [gpu] option only when the name of its device is not
    [CPU] and does not start with [HTP]. *)
Theorem getCurrentDeviceId_of_catalog_option
    (os : PlatformOS) (probe : ProbeOutcome) (o : DeviceOption.t)
    (c : ContextInitParams.t) :
  o ∈ getDeviceOptions os probe ->
  ContextInitParams.devices c = DeviceOption.devices o ->
  (os = ios -> DeviceOption.id o = id_auto ->
   PrimFloat.eqb (ContextInitParams.n_gpu_layers c) 0%float = false) ->
  (os <> ios -> DeviceOption.id o = id_gpu ->
   forall name, DeviceOption.devices o = Some [name] ->
     name <> "CPU" /\ Js.startsWith name "HTP" = false) ->
  getCurrentDeviceId os c = DeviceOption.id o.
Proof.
  intros Hin Hd Hauto Hgpu. unfold getCurrentDeviceId. cbv zeta. rewrite Hd.
  destruct (decide (os = ios)) as [-> | Hos].
  - cbn in Hin.
    repeat (apply elem_of_cons in Hin as [-> | Hin]);
      try (apply elem_of_nil in Hin; destruct Hin); cbn; try reflexivity.
    rewrite (Hauto eq_refl eq_refl). reflexivity.
  - replace (is_ios os) with false by (destruct os; cbn; congruence).
    destruct (getDeviceOptions_android_elem os probe o Hos Hin)
      as [(Hid & Ho & _) | [(Hid & d & _ & Ho & _) | (Hid & Ho & _)]];
      rewrite Hid, Ho; try reflexivity.
    destruct (Hgpu Hos Hid (deviceName d) Ho) as [Hn Hh].
    unfold Js.str_eq. apply String.eqb_neq in Hn. rewrite Hn, Hh. reflexivity.
Qed.

Lemma getCurrentDeviceId_of_catalog_option_witness :
  getCurrentDeviceId android
    (ContextInitParams.mk "2.0" 2048 512 512 4 "f16" "f16" 99 false "smart"
       (Some ["Adreno (TM) 740"]) (Some fa_off) true 1)
  = id_gpu.
Proof.
  apply (getCurrentDeviceId_of_catalog_option android
           (Ok (Some [mkDeviceInfo "Adreno (TM) 740" "gpu"]))
           (DeviceOption.mk id_gpu "GPU (OpenCL)"
              "OpenCL GPU acceleration (Only for Q4_0/Q6_K models)"
              (Some ["Adreno (TM) 740"]) 99%float fa_off [fa_off]
              (Some Fastest) None platform_android
              (Some (mkDeviceInfo "Adreno (TM) 740" "gpu")))).
  - cbn. in_list.
  - reflexivity.
  - discriminate.
  - intros _ _ name [= <-]. split; [discriminate | reflexivity].
Defined.

Example getCurrentDeviceId_ios_auto_without_layers :
  getCurrentDeviceId ios
    (ContextInitParams.mk "2.0" 2048 512 512 4 "f16" "f16" 0 false "true"
       None (Some fa_auto) true 1)
  = id_cpu.
Proof. reflexivity. Qed.

(** The option that [find] picks for an identifier of the list. *)
Lemma find_by_id (i : DeviceId) (l : list DeviceOption.t) :
  match List.find (fun opt => bool_decide (DeviceOption.id opt = i)) l with
  | Some o => o ∈ l /\ DeviceOption.id o = i
  | None => i ∉ map DeviceOption.id l
  end.
Proof.
  induction l as [|x l IH]; [apply not_elem_of_nil|].
  cbn [List.find]. destruct (bool_decide (DeviceOption.id x = i)) eqn:Hx.
  - apply bool_decide_eq_true in Hx. split; [apply list_elem_of_here | exact Hx].
  - apply bool_decide_eq_false in Hx.
    destruct (List.find _ l) as [o|].
    + destruct IH as [Hin Hid]. split; [apply list_elem_of_further, Hin | exact Hid].
    + cbn [map]. apply not_elem_of_cons. split; [congruence | exact IH].
Qed.

(** The valid modes of a catalog option, by platform and identifier. *)
Lemma getDeviceOptions_valid_types
    (os : PlatformOS) (probe : ProbeOutcome) (o : DeviceOption.t) :
  o ∈ getDeviceOptions os probe ->
  DeviceOption.valid_flash_attn_types o
  = if is_ios os || bool_decide (DeviceOption.id o = id_cpu)
    then [fa_auto; fa_on; fa_off] else [fa_off].
Proof.
  unfold getDeviceOptions. destruct (is_ios os).
  - intros Hin.
    repeat (apply elem_of_cons in Hin as [-> | Hin]);
      try (apply elem_of_nil in Hin; destruct Hin); reflexivity.
  - cbv zeta. rewrite !elem_of_app. intros [Hc | [Hg | Hh]].
    + apply list_elem_of_singleton in Hc. subst o. reflexivity.
    + destruct (List.find _ _); [|apply elem_of_nil in Hg; destruct Hg].
      apply list_elem_of_singleton in Hg. subst o. reflexivity.
    + destruct (0 <? _)%nat; [|apply elem_of_nil in Hh; destruct Hh].
      apply list_elem_of_singleton in Hh. subst o. reflexivity.
Qed.

(** X26. The flash-attention control always shows the three buttons
    [auto], [on], [off], and never disables [off]. With the catalog of
    [getDeviceOptions] loaded, [auto] and [on] are disabled exactly when the
    platform is not iOS and the current device is a [gpu] or [hexagon]
    option of the catalog; before the catalog is loaded no button is
    disabled. *)
Theorem flashAttentionButtons_spec
    (os : PlatformOS) (probe : ProbeOutcome) (c : ContextInitParams.t) :
  let buttons := flashAttentionButtons os c (getDeviceOptions os probe) in
  let current := getCurrentDeviceId os c in
  let restricted :=
    negb (is_ios os)
    && bool_decide (current ∈ [id_gpu; id_hexagon])
    && bool_decide (current ∈ map DeviceOption.id (getDeviceOptions os probe))
  in
  buttons = [ mkModeButton fa_auto restricted; mkModeButton fa_on restricted;
              mkModeButton fa_off false ] /\
  flashAttentionButtons os c []
  = [ mkModeButton fa_auto false; mkModeButton fa_on false;
      mkModeButton fa_off false ].
Proof.
  intros buttons current restricted. split; [|reflexivity].
  subst buttons restricted. unfold flashAttentionButtons. cbv zeta.
  fold current.
  pose proof (find_by_id current (getDeviceOptions os probe)) as Hf.
  destruct (List.find _ (getDeviceOptions os probe)) as [o|].
  - destruct Hf as [Hin Hid].
    rewrite (getDeviceOptions_valid_types os probe o Hin), Hid.
    rewrite (bool_decide_eq_true_2
               (current ∈ map DeviceOption.id (getDeviceOptions os probe)))
      by (rewrite <- Hid; apply list_elem_of_fmap_2, Hin).
    rewrite andb_true_r.
    destruct (decide (os = ios)) as [-> | Hos]; [reflexivity|].
    replace (is_ios os) with false by (destruct os; cbn; congruence).
    cbn [orb negb andb]. rewrite <- Hid.
    destruct (getDeviceOptions_android_elem os probe o Hos Hin)
      as [(H & _) | [(H & _) | (H & _)]]; rewrite H; reflexivity.
  - rewrite (bool_decide_eq_false_2 _ Hf), andb_false_r. reflexivity.
Qed.

Section DeviceSelectionInvariant.

Context {ModelStore : Type}.
Variable contextInitParams : ModelStore -> ContextInitParams.t.
Variable setDevices : option (list string) -> StoreM ModelStore unit.
Variable setFlashAttnType : FlashAttnType -> StoreM ModelStore unit.

(** What the two setters are taken to do: each writes its own field of the
    configuration and leaves the other one alone. *)
Hypothesis setDevices_sets :
  forall d st,
    ContextInitParams.devices (contextInitParams (snd (setDevices d st))) = d.
Hypothesis setDevices_keeps_flash_attn :
  forall d st,
    ContextInitParams.flash_attn_type
      (contextInitParams (snd (setDevices d st)))
    = ContextInitParams.flash_attn_type (contextInitParams st).
Hypothesis setFlashAttnType_sets :
  forall f st,
    ContextInitParams.flash_attn_type
      (contextInitParams (snd (setFlashAttnType f st))) = Some f.
Hypothesis setFlashAttnType_keeps_devices :
  forall f st,
    ContextInitParams.devices (contextInitParams (snd (setFlashAttnType f st)))
    = ContextInitParams.devices (contextInitParams st).

(** X27. After a device option whose default mode is one of its valid modes
    has been selected, the configuration holds the devices of the option and
    a flash-attention mode that the option allows (the platform default
    standing for an unset field); if the option allows [off] only, the mode
    is [off]. *)
Theorem handleDeviceSelect_leaves_valid_mode
    (os : PlatformOS) (option : DeviceOption.t) (st : ModelStore) :
  default_is_valid option ->
  let after :=
    contextInitParams
      (snd (handleDeviceSelect contextInitParams setDevices setFlashAttnType
              os option st)) in
  let mode :=
    default (if is_ios os then fa_auto else fa_off)
      (ContextInitParams.flash_attn_type after) in
  ContextInitParams.devices after = DeviceOption.devices option /\
  mode ∈ DeviceOption.valid_flash_attn_types option /\
  (DeviceOption.valid_flash_attn_types option = [fa_off] -> mode = fa_off).
Proof.
  intros Hvalid after mode.
  assert (Hmode : mode ∈ DeviceOption.valid_flash_attn_types option).
  { subst mode after.
    rewrite (handleDeviceSelect_after contextInitParams setDevices
               setFlashAttnType setDevices_keeps_flash_attn
               setFlashAttnType_sets os option st).
    cbv zeta. destruct (bool_decide _) eqn:Hb.
    - apply bool_decide_eq_true in Hb. exact Hb.
    - exact Hvalid. }
  refine (conj _ (conj Hmode _)).
  - subst after. unfold handleDeviceSelect, mbind, StoreM_bind, readStore.
    pose proof (setDevices_sets (DeviceOption.devices option) st) as Hd.
    destruct (setDevices (DeviceOption.devices option) st) as [[] st1].
    cbn [snd] in Hd. cbn beta iota.
    destruct (negb _).
    + rewrite setFlashAttnType_keeps_devices. exact Hd.
    + exact Hd.
  - intros Hoff. rewrite Hoff in Hmode.
    apply list_elem_of_singleton in Hmode. exact Hmode.
Qed.

End DeviceSelectionInvariant.

Lemma handleDeviceSelect_leaves_valid_mode_witness :
  let after :=
    SimpleStore.contextInitParams
      (snd (handleDeviceSelect SimpleStore.contextInitParams
              SimpleStore.setDevices SimpleStore.setFlashAttnType android
              (DeviceOption.mk id_hexagon "Hexagon"
                 "Qualcomm NPU (Experimental, fastest but may be unstable)"
                 (Some ["HTP*"]) 99%float fa_off [fa_off]
                 (Some Experimental) (Some true) platform_android None)
              (SimpleStore.mk
                 (ContextInitParams.mk "2.0" 2048 512 512 4 "f16" "f16" 0
                    false "smart" (Some ["CPU"]) (Some fa_on) true 1)))) in
  ContextInitParams.devices after = Some ["HTP*"] /\
  default fa_off (ContextInitParams.flash_attn_type after) ∈ [fa_off] /\
  ([fa_off] = [fa_off] ->
   default fa_off (ContextInitParams.flash_attn_type after) = fa_off).
Proof.
  apply (handleDeviceSelect_leaves_valid_mode
           SimpleStore.contextInitParams
           SimpleStore.setDevices SimpleStore.setFlashAttnType
           (fun d st => eq_refl) (fun d st => eq_refl)
           (fun f st => eq_refl) (fun f st => eq_refl)
           android
           (DeviceOption.mk id_hexagon "Hexagon"
              "Qualcomm NPU (Experimental, fastest but may be unstable)"
              (Some ["HTP*"]) 99%float fa_off [fa_off]
              (Some Experimental) (Some true) platform_android None)
           (SimpleStore.mk
              (ContextInitParams.mk "2.0" 2048 512 512 4 "f16" "f16" 0
                 false "smart" (Some ["CPU"]) (Some fa_on) true 1))).
  unfold default_is_valid. cbn. in_list.
Defined.

(** ** Hexagon detection *)

Example detectHexagonVersion_examples :
  detectHexagonVersion (Some "Qualcomm SM8650 (snapdragon 8 gen 3)") = Some v790 /\
  detectHexagonVersion (Some "Exynos 2400") = None /\
  detectHexagonVersion (Some "") = None /\
  detectHexagonVersion None = None.
Proof. repeat split; vm_compute; reflexivity. Qed.

(** X28. [hasSupportedHexagon] answers [false] whatever the probe reports:
    it asks [getHexagonInfo] without a chipset, and without a chipset no
    Hexagon version is detected. *)
Theorem hasSupportedHexagon_false (probe : ProbeOutcome) :
  hasSupportedHexagon probe = false /\ getHexagonInfo None probe = [].
Proof. split; reflexivity. Qed.

Lemma filter_nonempty_existsb {A : Type} (f : A -> bool) (l : list A) :
  (0 <? length (List.filter f l))%nat = existsb f l.
Proof.
  induction l as [|x l IH]; [reflexivity|].
  cbn [List.filter existsb]. destruct (f x); [reflexivity | exact IH].
Qed.

(** X29. [getHexagonInfo] returns at most one entry, and returns one exactly
    when a Hexagon version is detected from the chipset and the probe
    reports a device whose name starts with [HTP] (that is, when
    [isHexagonAvailable] holds). The entry is marked supported, names every
    such device, and its SoC is the first one listed for its version; the
    chipset contains, letter case apart, one of the SoC names of that
    version. *)
Theorem getHexagonInfo_spec (chipset : option string) (probe : ProbeOutcome) :
  (length (getHexagonInfo chipset probe) <= 1)%nat /\
  (getHexagonInfo chipset probe <> [] <->
   is_Some (detectHexagonVersion chipset) /\ isHexagonAvailable probe = true) /\
  Forall (fun info =>
            HexagonInfo.supported info = true /\
            detectHexagonVersion chipset = Some (HexagonInfo.version info) /\
            head (hexagon_socs (HexagonInfo.version info))
              = Some (HexagonInfo.soc info) /\
            HexagonInfo.deviceName info
              = String.concat ", "
                  (map deviceName
                     (List.filter
                        (fun d => Js.startsWith (deviceName d) "HTP")
                        (getAvailableDevices probe))) /\
            exists c soc,
              chipset = Some c /\
              soc ∈ hexagon_socs (HexagonInfo.version info) /\
              Js.includes (Js.toLowerCase c) (Js.toLowerCase soc) = true)
         (getHexagonInfo chipset probe).
Proof.
  unfold getHexagonInfo, isHexagonAvailable. cbv zeta.
  rewrite filter_nonempty_existsb.
  destruct (detectHexagonVersion chipset) as [v|] eqn:Hv.
  2: { refine (conj _ (conj _ _)); [cbn; lia | | constructor].
       split; [intros Hne; contradiction
              | intros [[x Hx] _]; discriminate Hx]. }
  destruct (existsb _ (getAvailableDevices probe)).
  2: { refine (conj _ (conj _ _)); [cbn; lia | | constructor].
       split; [intros Hne; contradiction | intros [_ Hx]; discriminate Hx]. }
  refine (conj _ (conj _ _)).
  - cbn. lia.
  - split; [intros _; split; [eexists; reflexivity | reflexivity]
           | intros _; discriminate].
  - apply Forall_cons_2; [|constructor].
    cbn [HexagonInfo.supported HexagonInfo.version HexagonInfo.soc
         HexagonInfo.deviceName].
    refine (conj _ (conj eq_refl (conj _ (conj eq_refl _)))).
    + destruct v; reflexivity.
    + destruct v; reflexivity.
    + unfold detectHexagonVersion in Hv.
      destruct chipset as [c|]; [|discriminate Hv].
      destruct (Js.str_eq c ""); [discriminate Hv|].
      apply find_first in Hv as (_ & _ & _ & Hex & _).
      apply existsb_exists in Hex as (soc & Hin & Hinc).
      exists c, soc. repeat split; [apply list_elem_of_In, Hin | exact Hinc].
Qed.

(** ** GPU capability check *)

(** X30. [checkGpuSupport] gives a reason exactly when it reports no
    support. On Android it reports support exactly when both native calls
    succeed and report an Adreno GPU, [i8mm] and [dotprod]; when they succeed
    the reason is [no_adreno] if there is no Adreno GPU, whatever the CPU
    has, and [missing_cpu_features] otherwise, never [unknown]. On iOS it
    reports support exactly when the version number is at least 18, and the
    only reason is [ios_version]. *)
Theorem checkGpuSupport_spec
    (os : PlatformOS) (iosVersion : float)
    (getGPUInfo : option (Res (option NativeGpuInfo)))
    (getCPUInfo : option (Res (option NativeCpuInfo))) :
  let r := checkGpuSupport os iosVersion getGPUInfo getCPUInfo in
  (GpuCapabilities.isSupported r = false
   <-> is_Some (GpuCapabilities.reason r)) /\
  (os = android ->
   (GpuCapabilities.isSupported r = true <->
    exists gpuInfo cpuInfo,
      getGPUInfo = Some (Ok (Some gpuInfo)) /\
      getCPUInfo = Some (Ok (Some cpuInfo)) /\
      gpu_hasAdreno gpuInfo = Some true /\
      cpu_hasI8mm cpuInfo = Some true /\
      cpu_hasDotProd cpuInfo = Some true) /\
   (forall gpuInfo cpuInfo,
      getGPUInfo = Some (Ok (Some gpuInfo)) ->
      getCPUInfo = Some (Ok (Some cpuInfo)) ->
      GpuCapabilities.reason r <> Some unknown /\
      (gpu_hasAdreno gpuInfo <> Some true ->
       GpuCapabilities.reason r = Some no_adreno))) /\
  (os = ios ->
   GpuCapabilities.isSupported r = PrimFloat.leb 18%float iosVersion /\
   (GpuCapabilities.isSupported r = false ->
    GpuCapabilities.reason r = Some ios_version)) /\
  (os = other_os -> r = GpuCapabilities.mk false (Some unknown) None).
Proof.
  intros r. subst r. refine (conj _ (conj _ (conj _ _))).
  - unfold checkGpuSupport.
    destruct os; cbn [is_ios is_android].
    + destruct (PrimFloat.leb 18 iosVersion); cbn; split; intros H;
        try discriminate H; try reflexivity; try (eexists; reflexivity).
      destruct H as [x H]. discriminate H.
    + destruct getGPUInfo as [[[g|]|]|], getCPUInfo as [[[c|]|]|]; cbn;
        try (split; [intros _; eexists; reflexivity | reflexivity]).
      destruct g as [[[]|]], c as [[[]|] [[]|]]; cbn; split; intros H;
        try discriminate H; try reflexivity; try (eexists; reflexivity);
        destruct H as [x H]; discriminate H.
    + cbn. split; [intros _; eexists; reflexivity | reflexivity].
  - intros ->. unfold checkGpuSupport. cbn [is_ios is_android]. split.
    + destruct getGPUInfo as [[[g|]|]|], getCPUInfo as [[[c|]|]|]; cbn;
        try (split; [discriminate | intros (g' & c' & Hg & Hc & _);
                                    discriminate]).
      destruct g as [[[]|]], c as [[[]|] [[]|]]; cbn; split; intros H;
        try discriminate H; try reflexivity;
        try (eexists; eexists; repeat split; reflexivity);
        destruct H as (g' & c' & [= <-] & [= <-] & Ha & Hi & Hd);
        cbn in *; discriminate.
    + intros g c -> ->.
      destruct g as [[[]|]], c as [[[]|] [[]|]]; cbn; split;
        try discriminate; try reflexivity; intros H; contradiction.
  - intros ->. unfold checkGpuSupport. cbn [is_ios]. cbv zeta. cbn.
    split; [reflexivity|]. intros ->. reflexivity.
  - intros ->. reflexivity.
Qed.

Lemma checkGpuSupport_spec_witness :
  GpuCapabilities.reason
    (checkGpuSupport android 0%float
       (Some (Ok (Some (mkNativeGpuInfo None))))
       (Some (Ok (Some (mkNativeCpuInfo (Some true) (Some true))))))
  = Some no_adreno.
Proof.
  destruct (checkGpuSupport_spec android 0%float
              (Some (Ok (Some (mkNativeGpuInfo None))))
              (Some (Ok (Some (mkNativeCpuInfo (Some true) (Some true))))))
    as (_ & Handroid & _).
  destruct (Handroid eq_refl) as [_ Hreason].
  apply (Hreason (mkNativeGpuInfo None)
           (mkNativeCpuInfo (Some true) (Some true)) eq_refl eq_refl).
  discriminate.
Defined.
